(** * ollama-proxy: a shallow embedding of [server.js] and of its legacy variant

    The repository holds two versions of one Express application:
    [server.js] (warmup, keepalive and a health check that probes the backend)
    and an older file without warmup whose health check is static.  The
    bearer-token middleware, the default inference options and the proxy
    handler are textually the same in both files, so they are embedded once.

    JSON values carry their numbers as binary64 floats, as JavaScript does.
    A JavaScript string is held as the bytes of its UTF-8 encoding (a lone
    surrogate as the three bytes of its code point).  A JavaScript object is
    a finite map from property names to values; the order of the keys is not
    observed by any function of the program. *)

From Stdlib Require Import PrimFloat ZArith Ascii String.
From stdpp Require Import gmap strings list fin_maps pretty.

Set Warnings "-inexact-float,-register-all".
Local Open Scope string_scope.
Local Open Scope Z_scope.

(** ** JSON values and JavaScript objects *)

(** What [JSON.parse] produces.  [undefined] is not a JSON value: a property
    read that finds nothing is [None]. *)
Inductive value : Type :=
| VNull
| VBool (b : bool)
| VNum (x : float)
| VStr (s : string)
| VArr (elems : list value)
| VObj (props : gmap string value).

(** JavaScript truthiness ([!v], [v || d], [if (v)]). *)
Definition truthy (v : value) : bool :=
  match v with
  | VNull => false
  | VBool b => b
  | VNum x => negb (PrimFloat.eqb x 0%float) && negb (PrimFloat.is_nan x)
  | VStr s => negb (String.eqb s "")
  | VArr _ | VObj _ => true
  end.

(** The properties of an array that are named by its indices. *)
Definition index_props (l : list value) : gmap string value :=
  list_to_map (imap (fun (i : nat) v => (pretty i, v)) l).

(** The string of one UTF-16 code unit above U+07FF: three bytes. *)
Definition unit_string (u : N) : string :=
  String (ascii_of_N (224 + u / 4096))
    (String (ascii_of_N (128 + (u / 64) mod 64))
       (String (ascii_of_N (128 + u mod 64)) EmptyString)).

(** The characters of a string as JavaScript indexes them, one per UTF-16
    code unit: a sequence of one, two or three bytes is one unit, a sequence
    of four bytes is a pair of surrogates.  ([JSON.parse] gives no string
    that ends inside a sequence; such an end is kept as one unit.) *)
Fixpoint chars (s : string) : list value :=
  match s with
  | EmptyString => []
  | String b0 rest =>
      if (N_of_ascii b0 <? 192)%N then VStr (String b0 EmptyString) :: chars rest
      else
        match rest with
        | EmptyString => [VStr s]
        | String b1 rest1 =>
            if (N_of_ascii b0 <? 224)%N
            then VStr (String b0 (String b1 EmptyString)) :: chars rest1
            else
              match rest1 with
              | EmptyString => [VStr s]
              | String b2 rest2 =>
                  if (N_of_ascii b0 <? 240)%N
                  then VStr (String b0 (String b1 (String b2 EmptyString))) :: chars rest2
                  else
                    match rest2 with
                    | EmptyString => [VStr s]
                    | String b3 rest3 =>
                        let v := ((N_of_ascii b0 mod 8) * 262144
                                  + (N_of_ascii b1 mod 64) * 4096
                                  + (N_of_ascii b2 mod 64) * 64
                                  + N_of_ascii b3 mod 64 - 65536)%N in
                        VStr (unit_string (55296 + v / 1024))
                          :: VStr (unit_string (56320 + v mod 1024))
                          :: chars rest3
                    end
              end
        end
  end.

(** The own enumerable properties of a value, which is what the object
    spread [{...v}] copies: the entries of an object, the elements of an
    array and the characters of a string under their indices, and nothing
    for a number, a boolean or [null]. *)
Definition own_enumerable (v : value) : gmap string value :=
  match v with
  | VObj m => m
  | VArr l => index_props l
  | VStr s => index_props (chars s)
  | VNull | VBool _ | VNum _ => ∅
  end.

(** The object the handler works on.  [express.json()] hands over a parsed
    object or a parsed array; the handler assigns named properties to it,
    and an assignment to an array leaves its elements alone and adds the
    property beside them ([extra]). *)
Inductive object : Type :=
| Plain (props : gmap string value)
| Array (elems : list value) (extra : gmap string value).

(** Own properties of an object.  The handler reads [stream], [options] and
    [hasOwnProperty] only; [stream] and [options] are not inherited from
    [Object.prototype] or [Array.prototype], so for them [o.k] is the own
    property. *)
Definition own (o : object) : gmap string value :=
  match o with
  | Plain m => m
  | Array l extra => extra ∪ index_props l
  end.

(** [o.k = v] for a property name [k] that is not an array index. *)
Definition set_prop (o : object) (k : string) (v : value) : object :=
  match o with
  | Plain m => Plain (<[k := v]> m)
  | Array l extra => Array l (<[k := v]> extra)
  end.

(** ** Errors and the outcome of a call to [axios] *)

(** The backend's response as [axios] hands it over.  [r_data] is the body
    the backend sent; the handlers pass it on and, in warmup and health,
    read the listing in it. *)
Record axios_response : Type := {
  r_status : Z;
  r_data : value
}.

(** A thrown JavaScript error, with the three fields the handlers read. *)
Record js_error : Type := {
  e_response : option axios_response;
  e_code : option string;
  e_message : string
}.

Inductive settled : Type :=
| Resolved (r : axios_response)
| Rejected (e : js_error).

(** A computation in a [try] block: it completes or throws. *)
Inductive attempt (A : Type) : Type :=
| Done (a : A)
| Throw (e : js_error).
Arguments Done {A} a.
Arguments Throw {A} e.

#[global] Instance attempt_bind : MBind attempt := fun A B f x =>
  match x with
  | Done a => f a
  | Throw e => Throw e
  end.

Definition TypeError (msg : string) : js_error :=
  {| e_response := None; e_code := None; e_message := msg |}.

(** ** Configuration (server.js 6-9) *)

Definition PORT : Z := 8080.
Definition OLLAMA_URL : string := "http://localhost:11434".
Definition MODEL_NAME : string := "mistral:7b".

(** [process.env.BEARER_TOKEN || 'your-secret-token-here']: an unset or
    empty variable gives the placeholder. *)
Definition BEARER_TOKEN (env : option string) : string :=
  match env with
  | Some t => if String.eqb t "" then "your-secret-token-here" else t
  | None => "your-secret-token-here"
  end.

(** ** Requests and replies *)

Record request : Type := {
  method : string;                  (* req.method, upper case *)
  url : string;                     (* req.url: the path and, after '?', the query *)
  authorization : option string;    (* req.headers.authorization *)
  body : option object              (* req.body: undefined when nothing was parsed *)
}.

(** Express's [req.path]: the request URL up to the query string. *)
Fixpoint pathname (u : string) : string :=
  match u with
  | EmptyString => EmptyString
  | String c rest => if Ascii.eqb c "?"%char then EmptyString else String c (pathname rest)
  end.

Definition path (req : request) : string := pathname (url req).

(** [hay.includes(needle)]. *)
Fixpoint includes (needle hay : string) : bool :=
  String.prefix needle hay ||
  match hay with
  | EmptyString => false
  | String _ rest => includes needle rest
  end.

(** What the client receives: [res.status(s).json(v)] (status 200 when
    [res.json] is called alone), or the backend's stream piped through under
    a JSON content type.  [Escaped s]: [res.status(s)] was called and
    [res.json] then threw, so the error leaves the handler, which has sent
    no reply. *)
Inductive reply : Type :=
| Json (status : Z) (payload : value)
| Piped (content_type : string) (source : value)
| Escaped (status : Z).

(** The configuration object handed to [axios]. *)
Record axios_config : Type := {
  c_method : string;
  c_url : string;
  c_headers : gmap string string;
  c_timeout : option Z;
  c_data : option object;
  c_responseType : option string
}.

(** ** Bearer token validation (server.js 15-21) *)

Definition Unauthorized : reply := Json 401 (VObj {[ "error" := VStr "Unauthorized" ]}).

(** [next] is the rest of the route's chain; a reply comes with the requests
    that were sent to the backend while it was produced. *)
Definition validateToken (token : string) (req : request)
    (next : request -> reply * list axios_config) : reply * list axios_config :=
  match authorization req with
  | None => (Unauthorized, [])
  | Some auth =>
      if String.eqb auth "" || negb (String.eqb auth ("Bearer " +:+ token))
      then (Unauthorized, [])
      else next req
  end.

(** ** Default inference options (server.js 24-36) *)

Definition getOptimizedParams : gmap string value :=
  list_to_map [
    ("num_ctx", VNum 4096%float);
    ("num_batch", VNum 512%float);
    ("num_gpu", VNum (-1)%float);
    ("main_gpu", VNum 0%float);
    ("use_mmap", VBool true);
    ("num_thread", VNum 8%float);
    ("temperature", VNum 0.7%float);
    ("top_k", VNum 40%float);
    ("top_p", VNum 0.9%float);
    ("repeat_penalty", VNum 1.1%float);
    ("penalize_newline", VBool false)
  ].

(** [{ ...a, ...b }]: the properties of [b] win over those of [a]. *)
Definition spread2 (a b : gmap string value) : gmap string value := b ∪ a.

(** ** The proxy handler (server.js 121-199) *)

(** The path test of line 127. *)
Definition is_generation_or_chat (p : string) : bool :=
  includes "/generate" p || includes "/chat" p.

(** [payload.hasOwnProperty('stream')]: the method is inherited, unless the
    parsed body has a property of that name of its own, which is a JSON
    value and cannot be called. *)
Definition hasOwnProperty (payload : object) (k : string) : attempt bool :=
  match own payload !! "hasOwnProperty" with
  | Some _ => Throw (TypeError "payload.hasOwnProperty is not a function")
  | None => Done (bool_decide (is_Some (own payload !! k)))
  end.

(** [v !== true] *)
Definition is_not_true (v : option value) : bool :=
  match v with
  | Some (VBool true) => false
  | _ => true
  end.

(** [payload.options || {}] *)
Definition options_or_empty (payload : object) : value :=
  match own payload !! "options" with
  | Some v => if truthy v then v else VObj ∅
  | None => VObj ∅
  end.

(** Lines 129-140: force [stream], then merge the options. *)
Definition augment (payload : object) : attempt object :=
  has ← hasOwnProperty payload "stream";
  let payload1 :=
    if negb has || is_not_true (own payload !! "stream")
    then set_prop payload "stream" (VBool false)
    else payload in
  let optimizedParams := getOptimizedParams in
  Done (set_prop payload1 "options"
          (VObj (spread2 optimizedParams (own_enumerable (options_or_empty payload1))))).

(** Line 124. *)
Definition initial_payload (req : request) : object :=
  if String.eqb (method req) "GET" then Plain ∅
  else match body req with
       | Some b => b
       | None => Plain ∅
       end.

(** Lines 124-141. *)
Definition effective_payload (req : request) : attempt object :=
  let payload := initial_payload req in
  if String.eqb (method req) "POST" && is_generation_or_chat (path req)
  then augment payload
  else Done payload.

Definition stream_requested (payload : object) : bool :=
  match own payload !! "stream" with
  | Some v => truthy v
  | None => false
  end.

(** Lines 150-167. *)
Definition axiosConfig (req : request) (payload : object) : axios_config :=
  {| c_method := method req;
     c_url := OLLAMA_URL +:+ path req;
     c_headers := {[ "Content-Type" := "application/json" ]};
     c_timeout := Some 600000;
     c_data :=
       if negb (String.eqb (method req) "GET") && negb (String.eqb (method req) "HEAD")
       then Some payload else None;
     c_responseType := if stream_requested payload then Some "stream" else None |}.

(** The [try] block up to the call of [axios]: the payload and the request
    that is about to be sent. *)
Definition outbound (req : request) : attempt (object * axios_config) :=
  payload ← effective_payload req;
  Done (payload, axiosConfig req payload).

(** Lines 179-198: the [catch] block.  [streamed] says whether the request
    was made with [responseType: 'stream'] (line 166).  The data of the
    response that comes with the error is then the backend's stream, linked
    to its socket, and not a JSON value: [res.json] cannot serialise it and
    throws, after [res.status] has been called. *)
Definition on_error (streamed : bool) (error : js_error) : reply :=
  match e_response error with
  | Some r => if streamed then Escaped (r_status r) else Json (r_status r) (r_data r)
  | None =>
      if decide (e_code error = Some "ECONNREFUSED")
      then Json 503 (VObj (list_to_map [
             ("error", VStr "Ollama service unavailable");
             ("message", VStr "Make sure Ollama is running on localhost:11434") ]))
      else Json 500 (VObj (list_to_map [
             ("error", VStr "Internal server error");
             ("message", VStr (e_message error)) ]))
  end.

(** The handler.  [axios] stands for the backend seen through the HTTP
    client: it settles each request.  The result is the reply to the client
    together with the requests that were sent to the backend, in order.  An
    error thrown before the request is made carries no response. *)
Definition proxyHandler (axios : axios_config -> settled) (req : request)
    : reply * list axios_config :=
  match outbound req with
  | Throw error => (on_error false error, [])
  | Done (payload, config) =>
      match axios config with
      | Resolved ollamaResponse =>
          (if stream_requested payload
           then Piped "application/json" (r_data ollamaResponse)
           else Json 200 (r_data ollamaResponse),
           [config])
      | Rejected error => (on_error (stream_requested payload) error, [config])
      end
  end.

(** ** Calls to the backend outside the proxy handler *)

(** An awaited sequence of backend calls inside a [try] block: how it ended,
    and which requests were sent on the way. *)
Record io (A : Type) : Type := IO {
  outcome : attempt A;
  sent : list axios_config
}.
Arguments IO {A} outcome sent.
Arguments outcome {A} i.
Arguments sent {A} i.

#[global] Instance io_ret : MRet io := fun A a => IO (Done a) [].

#[global] Instance io_bind : MBind io := fun A B f x =>
  match outcome x with
  | Done a => IO (outcome (f a)) (sent x ++ sent (f a))%list
  | Throw e => IO (Throw e) (sent x)
  end.

Definition lift {A : Type} (x : attempt A) : io A := IO x [].

(** [await axios(config)] *)
Definition await (axios : axios_config -> settled) (config : axios_config)
    : io axios_response :=
  match axios config with
  | Resolved r => IO (Done r) [config]
  | Rejected e => IO (Throw e) [config]
  end.

(** [axios.get(url, { timeout })] and [axios.post(url, data, { timeout })]. *)
Definition axios_get (u : string) (timeout : option Z) : axios_config :=
  {| c_method := "get"; c_url := u; c_headers := ∅; c_timeout := timeout;
     c_data := None; c_responseType := None |}.

Definition axios_post (u : string) (data : gmap string value) (timeout : option Z)
    : axios_config :=
  {| c_method := "post"; c_url := u; c_headers := ∅; c_timeout := timeout;
     c_data := Some (Plain data); c_responseType := None |}.

(** ** The model check of warmup and health (server.js 49-51, 225-227) *)

(** [model.name] *)
Definition name_of (model : value) : attempt (option value) :=
  match model with
  | VNull => Throw (TypeError "Cannot read properties of null (reading 'name')")
  | VObj m => Done (m !! "name")
  | _ => Done None
  end.

(** [model => model.name === MODEL_NAME || model.name.startsWith(MODEL_NAME + ':')] *)
Definition names_target (model : value) : attempt bool :=
  name ← name_of model;
  match name with
  | Some (VStr s) =>
      Done (String.eqb s MODEL_NAME || String.prefix (MODEL_NAME +:+ ":") s)
  | Some VNull => Throw (TypeError "Cannot read properties of null (reading 'startsWith')")
  | None => Throw (TypeError "Cannot read properties of undefined (reading 'startsWith')")
  | Some _ => Throw (TypeError "model.name.startsWith is not a function")
  end.

(** [Array.prototype.some]: stops at the first entry the callback accepts;
    what the callback throws is thrown on. *)
Fixpoint some (f : value -> attempt bool) (l : list value) : attempt bool :=
  match l with
  | [] => Done false
  | x :: rest => b ← f x; if (b : bool) then Done true else some f rest
  end.

(** [subject.data.models.some(...)], where [subject] is the variable that
    holds the response ([tagsResponse] in warmup, [psResponse] in the health
    check): it is named in one of the messages. *)
Definition models_some (subject : string) (data : value) : attempt bool :=
  match data with
  | VNull => Throw (TypeError "Cannot read properties of null (reading 'models')")
  | VObj m =>
      match m !! "models" with
      | Some (VArr l) => some names_target l
      | Some VNull => Throw (TypeError "Cannot read properties of null (reading 'some')")
      | None => Throw (TypeError "Cannot read properties of undefined (reading 'some')")
      | Some _ => Throw (TypeError (subject +:+ ".data.models.some is not a function"))
      end
  | _ => Throw (TypeError "Cannot read properties of undefined (reading 'some')")
  end.

(** [tagsResponse.data.models.some(...)] (server.js 49-51). *)
Definition model_listed (data : value) : attempt bool :=
  models_some "tagsResponse" data.

(** ** Warmup (server.js 39-95) *)

Definition version_probe : axios_config :=
  axios_get (OLLAMA_URL +:+ "/api/version") (Some 5000).

Definition tags_query : axios_config :=
  axios_get (OLLAMA_URL +:+ "/api/tags") None.

(** A minimal generation: the default options and a cap on the output. *)
Definition generation (prompt : string) (max_tokens : float) : gmap string value :=
  list_to_map [
    ("model", VStr MODEL_NAME);
    ("prompt", VStr prompt);
    ("stream", VBool false);
    ("options", VObj (spread2 getOptimizedParams {[ "max_tokens" := VNum max_tokens ]}))
  ].

Definition warmupPayload : gmap string value := generation "Hi" 10%float.

Definition warmup_request : axios_config :=
  axios_post (OLLAMA_URL +:+ "/api/generate") warmupPayload (Some 120000).

(** [warmupResponse.data.response.trim()], for the log line. *)
Definition response_text (data : value) : attempt string :=
  match data with
  | VObj m =>
      match m !! "response" with
      | Some (VStr s) => Done s
      | Some VNull => Throw (TypeError "Cannot read properties of null (reading 'trim')")
      | None => Throw (TypeError "Cannot read properties of undefined (reading 'trim')")
      | Some _ => Throw (TypeError "warmupResponse.data.response.trim is not a function")
      end
  | VNull => Throw (TypeError "Cannot read properties of null (reading 'response')")
  | _ => Throw (TypeError "Cannot read properties of undefined (reading 'trim')")
  end.

(** The [try] block of [warmupModel]. *)
Definition warmup_steps (axios : axios_config -> settled) : io bool :=
  await axios version_probe;;
  tagsResponse ← await axios tags_query;
  modelExists ← lift (model_listed (r_data tagsResponse));
  if negb (modelExists : bool) then mret false
  else
    warmupResponse ← await axios warmup_request;
    lift (response_text (r_data warmupResponse));;
    mret true.

(** [warmupModel]: the [catch] block turns every failure into [false]. *)
Definition warmupModel (axios : axios_config -> settled) : bool * list axios_config :=
  let run := warmup_steps axios in
  (match outcome run with
   | Done b => b
   | Throw _ => false
   end, sent run).

(** ** Keepalive (server.js 98-118) and the life of the process *)

Definition keepalive_request : axios_config :=
  axios_post (OLLAMA_URL +:+ "/api/generate") (generation "ping" 1%float) (Some 30000).

(** One firing of the interval's callback: the request it sends and the line
    it logs.  The callback catches whatever the request throws. *)
Definition keepalive_tick (result : settled) : list axios_config * string :=
  match result with
  | Resolved _ => ([keepalive_request], "💓 Keepalive ping successful")
  | Rejected error => ([keepalive_request], "⚠️ Keepalive ping failed: " +:+ e_message error)
  end.

(** The process: whether the HTTP server listens, whether the keepalive
    interval is set, and the exit code once the process has exited. *)
Record process : Type := {
  listening : bool;
  keepalive : bool;
  exited : option Z
}.

(** [startServer] (server.js 247-273): listen first, then warm up, and set
    the interval only after a successful warmup. *)
Definition startServer (axios : axios_config -> settled) : process * list axios_config :=
  let server := true in
  let '(warmupSuccess, requests) := warmupModel axios in
  ({| listening := server; keepalive := warmupSuccess; exited := None |}, requests).

(** What happens to a running process: the interval fires (and the backend
    settles the ping), or SIGINT/SIGTERM arrives (server.js 276-284). *)
Inductive event : Type :=
| Tick (result : settled)
| Signal.

Definition step (p : process) (ev : event) : process * list axios_config :=
  match exited p with
  | Some _ => (p, [])
  | None =>
      match ev with
      | Tick result => if keepalive p then (p, fst (keepalive_tick result)) else (p, [])
      | Signal => ({| listening := false; keepalive := keepalive p; exited := Some 0 |}, [])
      end
  end.

Fixpoint run (p : process) (evs : list event) : process * list axios_config :=
  match evs with
  | [] => (p, [])
  | ev :: rest =>
      let '(p1, out1) := step p ev in
      let '(p2, out2) := run p1 rest in
      (p2, (out1 ++ out2)%list)
  end.

(** ** Health checks *)

(** server.js 219-244.  [now] is [new Date().toISOString()]. *)
Definition health_steps (axios : axios_config -> settled) (now : string) : io value :=
  versionResponse ← await axios version_probe;
  psResponse ← await axios (axios_get (OLLAMA_URL +:+ "/api/ps") (Some 5000));
  modelLoaded ← lift (models_some "psResponse" (r_data psResponse));
  version ← lift (match r_data versionResponse with
                  | VNull => Throw (TypeError "Cannot read properties of null (reading 'version')")
                  | VObj m => Done (m !! "version")
                  | _ => Done None
                  end);
  mret (VObj (
    let fixed : gmap string value := list_to_map [
      ("status", VStr "healthy");
      ("timestamp", VStr now);
      ("ollama_url", VStr OLLAMA_URL);
      ("model_loaded", VBool modelLoaded);
      ("model_name", VStr MODEL_NAME) ] in
    match version with
    | Some v => <[ "ollama_version" := v ]> fixed
    | None => fixed
    end)).

Definition health (axios : axios_config -> settled) (now : string)
    : reply * list axios_config :=
  let run := health_steps axios now in
  (match outcome run with
   | Done v => Json 200 v
   | Throw error =>
       Json 503 (VObj (list_to_map [
         ("status", VStr "unhealthy");
         ("timestamp", VStr now);
         ("error", VStr (e_message error)) ]))
   end, sent run).

(** ** The application: routes in the order of registration (server.js 202-244) *)

Inductive endpoint : Type :=
| Protected      (* validateToken, proxyHandler *)
| HealthCheck.

Definition routes : list (string * string * endpoint) := [
  ("get", "/api/version", Protected);
  ("get", "/api/tags", Protected);
  ("get", "/api/ps", Protected);
  ("post", "/api/generate", Protected);
  ("post", "/api/chat", Protected);
  ("post", "/api/create", Protected);
  ("post", "/api/pull", Protected);
  ("post", "/api/push", Protected);
  ("post", "/api/embed", Protected);
  ("post", "/api/embeddings", Protected);
  ("post", "/api/show", Protected);
  ("post", "/api/copy", Protected);
  ("delete", "/api/delete", Protected);
  ("head", "/api/blobs/:digest", Protected);
  ("post", "/api/blobs/:digest", Protected);
  ("get", "/health", HealthCheck)
].

Section Application.
(** Express decides whether a registered verb and path pattern match a
    request; the token comes from the environment. *)
Variable route_matches : string -> string -> request -> bool.
Variable env_BEARER_TOKEN : option string.
Variable axios : axios_config -> settled.
Variable now : string.

Definition route_of (req : request) : option endpoint :=
  snd <$> List.find (fun r => route_matches (fst (fst r)) (snd (fst r)) req) routes.

(** [None]: no route of the application matched. *)
Definition app (req : request) : option (reply * list axios_config) :=
  match route_of req with
  | Some Protected =>
      Some (validateToken (BEARER_TOKEN env_BEARER_TOKEN) req (proxyHandler axios))
  | Some HealthCheck => Some (health axios now)
  | None => None
  end.
End Application.

(** ** The legacy variant: no warmup, no keepalive, a static health check *)

Module Legacy.

Definition health (now : string) : reply * list axios_config :=
  (Json 200 (VObj (list_to_map [
     ("status", VStr "healthy");
     ("timestamp", VStr now);
     ("ollama_url", VStr OLLAMA_URL) ])), []).

Section Application.
Variable route_matches : string -> string -> request -> bool.
Variable env_BEARER_TOKEN : option string.
Variable axios : axios_config -> settled.
Variable now : string.

Definition app (req : request) : option (reply * list axios_config) :=
  match route_of route_matches req with
  | Some Protected =>
      Some (validateToken (BEARER_TOKEN env_BEARER_TOKEN) req (proxyHandler axios))
  | Some HealthCheck => Some (health now)
  | None => None
  end.
End Application.

End Legacy.

(** ** The steps of the augmentation, named *)

(** The payload after the [stream] test of lines 129-131. *)
Definition forced (payload : object) : object :=
  if is_not_true (own payload !! "stream")
  then set_prop payload "stream" (VBool false)
  else payload.

Definition merged_options (payload : object) : gmap string value :=
  spread2 getOptimizedParams (own_enumerable (options_or_empty payload)).



(** Whether the handler makes its request in streaming mode (line 165). *)
Definition streamed (req : request) : bool :=
  match outbound req with
  | Done (payload, _) => stream_requested payload
  | Throw _ => false
  end.

(** What the [catch] block of the handler catches, if anything: an error
    thrown before the request is sent, or the rejection of the request. *)
Definition caught (axios : axios_config -> settled) (req : request) : option js_error :=
  match outbound req with
  | Throw error => Some error
  | Done (_, config) =>
      match axios config with
      | Rejected error => Some error
      | Resolved _ => None
      end
  end.

(** The entries of a model listing, when the data has the shape
    [{ models: [...] }]. *)
Definition listing (data : value) : option (list value) :=
  match data with
  | VObj m =>
      match m !! "models" with
      | Some (VArr l) => Some l
      | _ => None
      end
  | _ => None
  end.

(** An entry whose name is the configured model name, or starts with that
    name followed by a colon. *)
Definition names_configured_model (entry : value) : Prop :=
  exists m s, entry = VObj m /\ m !! "name" = Some (VStr s) /\
    (s = MODEL_NAME \/ exists tag, s = MODEL_NAME +:+ ":" +:+ tag).

(** ** Scenarios *)

(** A matcher for the scenarios: the pattern is the path, literally, and
    the verb is the method in lower case. *)
Definition literal_match (verb pattern : string) (req : request) : bool :=
  String.eqb pattern (path req) &&
  String.eqb (method req)
    (if String.eqb verb "get" then "GET"
     else if String.eqb verb "post" then "POST"
     else if String.eqb verb "delete" then "DELETE"
     else "HEAD").

Definition timestamp : string := "2025-01-01T00:00:00.000Z".

Definition backend_up : axios_config -> settled :=
  fun _ => Resolved {| r_status := 200; r_data := VObj ∅ |}.

Definition refused : js_error :=
  {| e_response := None; e_code := Some "ECONNREFUSED";
     e_message := "connect ECONNREFUSED 127.0.0.1:11434" |}.

Definition backend_down : axios_config -> settled := fun _ => Rejected refused.

(** A backend that runs, with one model installed, which is not the
    configured one. *)
Definition backend_without_model : axios_config -> settled :=
  fun config =>
    if String.eqb (c_url config) "http://localhost:11434/api/tags"
    then Resolved {| r_status := 200;
                     r_data := VObj {[ "models" := VArr [VObj {[ "name" := VStr "llama3:8b" ]}] ]} |}
    else Resolved {| r_status := 200; r_data := VObj {[ "version" := VStr "0.5.1" ]} |}.

Definition credential : option string := Some "Bearer your-secret-token-here".


(** The same with a temperature and a stream that is not the boolean true. *)
Definition chat_request : request :=
  {| method := "POST"; url := "/api/chat"; authorization := credential;
     body := Some (Plain (list_to_map [
       ("model", VStr "mistral:7b");
       ("stream", VStr "true");
       ("options", VObj (list_to_map [
          ("temperature", VNum 0.2%float); ("seed", VNum 42%float) ])) ])) |}.

Definition chat_forwarded : gmap string value :=
  list_to_map [
    ("model", VStr "mistral:7b");
    ("stream", VBool false);
    ("options", VObj (list_to_map [
       ("num_ctx", VNum 4096%float);
       ("num_batch", VNum 512%float);
       ("num_gpu", VNum (-1)%float);
       ("main_gpu", VNum 0%float);
       ("use_mmap", VBool true);
       ("num_thread", VNum 8%float);
       ("temperature", VNum 0.2%float);
       ("top_k", VNum 40%float);
       ("top_p", VNum 0.9%float);
       ("repeat_penalty", VNum 1.1%float);
       ("penalize_newline", VBool false);
       ("seed", VNum 42%float) ])) ].

Definition pull_body : object := Plain {[ "name" := VStr "mistral:7b" ]}.

Definition pull_request : request :=
  {| method := "POST"; url := "/api/pull"; authorization := credential;
     body := Some pull_body |}.

(** POST /api/pull with nothing that [express.json()] parsed. *)
Definition pull_without_body : request :=
  {| method := "POST"; url := "/api/pull"; authorization := credential;
     body := None |}.

Definition tags_with_query : request :=
  {| method := "GET"; url := "/api/tags?verbose=1"; authorization := credential;
     body := None |}.

Definition anonymous_tags : request :=
  {| method := "GET"; url := "/api/tags"; authorization := None; body := None |}.

Definition health_request : request :=
  {| method := "GET"; url := "/health"; authorization := None; body := None |}.

Definition warmed_up : process :=
  {| listening := true; keepalive := true; exited := None |}.

(** ** Vocabulary for the listing and the health check *)

(** An entry of a listing that is an object with a string for its name. *)
Definition well_formed_entry (entry : value) : Prop :=
  exists m s, entry = VObj m /\ m !! "name" = Some (VStr s).

(** The second probe of the health check (server.js 223). *)
Definition ps_query : axios_config :=
  axios_get (OLLAMA_URL +:+ "/api/ps") (Some 5000).

(** A backend whose listings start with a [null] entry, before the entry of
    the configured model; every generation is answered with a text. *)
Definition backend_with_null_entry : axios_config -> settled :=
  fun _ =>
    Resolved {| r_status := 200;
                r_data := VObj (list_to_map [
                  ("models", VArr [VNull; VObj {[ "name" := VStr "mistral:7b" ]}]);
                  ("response", VStr "Hello") ]) |}.

(** A backend with the configured model installed and loaded, which answers
    every request with the same data. *)
Definition backend_ready : axios_config -> settled :=
  fun _ =>
    Resolved {| r_status := 200;
                r_data := VObj (list_to_map [
                  ("version", VStr "0.5.1");
                  ("models", VArr [VObj {[ "name" := VStr "mistral:7b" ]}]);
                  ("response", VStr " Hello! ") ]) |}.

(** The same, but a generation is answered without a [response] text. *)
Definition backend_without_text : axios_config -> settled :=
  fun _ =>
    Resolved {| r_status := 200;
                r_data := VObj (list_to_map [
                  ("version", VStr "0.5.1");
                  ("models", VArr [VObj {[ "name" := VStr "mistral:7b" ]}]) ]) |}.

(** A backend that runs with another model, installed and loaded. *)
Definition backend_idle : axios_config -> settled :=
  fun _ =>
    Resolved {| r_status := 200;
                r_data := VObj (list_to_map [
                  ("version", VStr "0.5.1");
                  ("models", VArr [VObj {[ "name" := VStr "llama3:8b" ]}]) ]) |}.


(** A backend that cannot be reached: no route to the host. *)
Definition unreachable : js_error :=
  {| e_response := None; e_code := Some "EHOSTUNREACH";
     e_message := "connect EHOSTUNREACH 127.0.0.1:11434" |}.

Definition backend_unreachable : axios_config -> settled := fun _ => Rejected unreachable.

(** A backend that answers every request with 404 and an error body. *)
Definition not_found : axios_response :=
  {| r_status := 404;
     r_data := VObj {[ "error" := VStr "model 'mistral:7b' not found" ]} |}.

Definition backend_answers_404 : axios_config -> settled :=
  fun _ => Rejected {| e_response := Some not_found; e_code := Some "ERR_BAD_REQUEST";
                       e_message := "Request failed with status code 404" |}.

(** POST /api/generate that asks for a stream. *)
Definition stream_request : request :=
  {| method := "POST"; url := "/api/generate"; authorization := credential;
     body := Some (Plain (list_to_map [
       ("model", VStr "mistral:7b"); ("prompt", VStr "hi"); ("stream", VBool true) ])) |}.

(** * Properties *)

(** ** Objects *)

Lemma own_set_prop (o : object) (k : string) (v : value) :
  own (set_prop o k v) = <[k := v]> (own o).
Proof.
  destruct o as [m | l extra]; simpl; [reflexivity |].
  symmetry. apply insert_union_l.
Qed.

Lemma set_prop_twice (o : object) (k : string) (v w : value) :
  set_prop (set_prop o k v) k w = set_prop o k w.
Proof. destruct o; simpl; f_equal; apply insert_insert_eq. Qed.

Lemma set_prop_swap (o : object) (j k : string) (v w : value) :
  j ≠ k -> set_prop (set_prop o j v) k w = set_prop (set_prop o k w) j v.
Proof. intros Hne. destruct o; simpl; f_equal; apply insert_insert_ne; congruence. Qed.

Lemma spread2_lookup (a b : gmap string value) (k : string) :
  spread2 a b !! k = match b !! k with Some v => Some v | None => a !! k end.
Proof.
  unfold spread2. rewrite lookup_union.
  destruct (b !! k), (a !! k); reflexivity.
Qed.

Lemma spread2_again (a b : gmap string value) :
  spread2 a (spread2 a b) = spread2 a b.
Proof.
  apply map_eq; intros k. rewrite !spread2_lookup.
  destruct (b !! k), (a !! k); reflexivity.
Qed.

(** ** The augmentation, step by step *)

Lemma augment_throws (payload : object) :
  is_Some (own payload !! "hasOwnProperty") ->
  augment payload = Throw (TypeError "payload.hasOwnProperty is not a function").
Proof.
  intros [v Hv]. unfold augment, hasOwnProperty. rewrite Hv. reflexivity.
Qed.

Lemma augment_done (payload : object) :
  own payload !! "hasOwnProperty" = None ->
  augment payload =
    Done (set_prop (forced payload) "options" (VObj (merged_options (forced payload)))).
Proof.
  intros Hnone. unfold augment, hasOwnProperty, forced, merged_options.
  rewrite Hnone.
  destruct (own payload !! "stream") as [v |] eqn:Hs.
  - rewrite bool_decide_eq_true_2 by eauto. reflexivity.
  - rewrite bool_decide_eq_false_2 by (intros [? ?]; discriminate). reflexivity.
Qed.

Lemma augment_inv (payload result : object) :
  augment payload = Done result ->
  own payload !! "hasOwnProperty" = None /\
  result = set_prop (forced payload) "options" (VObj (merged_options (forced payload))).
Proof.
  intros Hdone.
  destruct (own payload !! "hasOwnProperty") as [v |] eqn:Hh.
  - rewrite augment_throws in Hdone by eauto. discriminate.
  - rewrite augment_done in Hdone by assumption. split; congruence.
Qed.

Lemma forced_stream (payload : object) :
  own (forced payload) !! "stream" =
    Some (VBool (negb (is_not_true (own payload !! "stream")))).
Proof.
  unfold forced.
  destruct (is_not_true (own payload !! "stream")) eqn:Hnt.
  - rewrite own_set_prop, lookup_insert_eq. reflexivity.
  - destruct (own payload !! "stream") as [[| [|] | | | |] |]; simpl in Hnt;
      try discriminate. reflexivity.
Qed.

Lemma forced_other (payload : object) (k : string) :
  k ≠ "stream" -> own (forced payload) !! k = own payload !! k.
Proof.
  intros Hne. unfold forced.
  destruct (is_not_true (own payload !! "stream")); [| reflexivity].
  rewrite own_set_prop, lookup_insert_ne by congruence. reflexivity.
Qed.

Lemma options_or_empty_forced (payload : object) :
  options_or_empty (forced payload) = options_or_empty payload.
Proof. unfold options_or_empty. rewrite forced_other by discriminate. reflexivity. Qed.

Lemma forced_fixed (payload : object) (opts : value) :
  forced (set_prop (forced payload) "options" opts) = set_prop (forced payload) "options" opts.
Proof.
  unfold forced at 1.
  rewrite own_set_prop, lookup_insert_ne, forced_stream by discriminate.
  destruct (is_not_true (own payload !! "stream")) eqn:Hnt; simpl; [| reflexivity].
  unfold forced. rewrite Hnt.
  rewrite <- set_prop_swap by discriminate.
  rewrite set_prop_twice. reflexivity.
Qed.

Lemma merged_options_fixed (payload : object) (opts : gmap string value) :
  opts = merged_options payload ->
  merged_options (set_prop payload "options" (VObj opts)) = opts.
Proof.
  intros ->. unfold merged_options at 1, options_or_empty.
  rewrite own_set_prop, lookup_insert_eq. simpl.
  apply spread2_again.
Qed.

(** The augmentation applied to its own result changes nothing. *)
Lemma augment_fixed (payload result : object) :
  augment payload = Done result -> augment result = Done result.
Proof.
  intros Hdone. apply augment_inv in Hdone as [Hnone ->].
  rewrite augment_done.
  - rewrite forced_fixed, merged_options_fixed, set_prop_twice; reflexivity.
  - rewrite own_set_prop, lookup_insert_ne, forced_other by discriminate.
    assumption.
Qed.

(** ** What the handler sends *)

Lemma proxyHandler_sent (axios : axios_config -> settled) (req : request) :
  snd (proxyHandler axios req) =
    match effective_payload req with
    | Done payload => [axiosConfig req payload]
    | Throw _ => []
    end.
Proof.
  unfold proxyHandler, outbound.
  destruct (effective_payload req) as [payload | e]; simpl; [| reflexivity].
  destruct (axios (axiosConfig req payload)); reflexivity.
Qed.

Lemma proxyHandler_sent_inv (axios : axios_config -> settled) (req : request)
    (config : axios_config) :
  config ∈ snd (proxyHandler axios req) ->
  exists payload, effective_payload req = Done payload /\ config = axiosConfig req payload.
Proof.
  rewrite proxyHandler_sent.
  destruct (effective_payload req) as [payload | e]; intros Hin.
  - apply list_elem_of_singleton in Hin. eauto.
  - apply elem_of_nil in Hin. contradiction.
Qed.

Lemma effective_payload_augmented (req : request) :
  method req = "POST" -> is_generation_or_chat (path req) = true ->
  effective_payload req = augment (initial_payload req).
Proof. intros Hm Hp. unfold effective_payload. rewrite Hm, Hp. reflexivity. Qed.

Lemma effective_payload_untouched (req : request) :
  method req = "POST" -> is_generation_or_chat (path req) = false ->
  effective_payload req = Done (initial_payload req).
Proof. intros Hm Hp. unfold effective_payload. rewrite Hm, Hp. reflexivity. Qed.

Lemma post_data (req : request) (payload : object) :
  method req = "POST" -> c_data (axiosConfig req payload) = Some payload.
Proof. intros Hm. unfold axiosConfig. simpl. rewrite Hm. reflexivity. Qed.

(** ** The claims on the augmentation *)








(** C9. The augmentation is idempotent: run on its own result it gives that
    result again (and it throws the second time exactly when it threw the
    first time).  A result has a boolean [stream] and an [options] object
    with every default key, and is a fixed point. *)
Theorem C9_augment_idempotent (payload : object) :
  (augment payload ≫= augment) = augment payload /\
  forall result, augment payload = Done result ->
    (exists b, own result !! "stream" = Some (VBool b)) /\
    (exists opts, own result !! "options" = Some (VObj opts) /\
       forall k, is_Some (getOptimizedParams !! k) -> is_Some (opts !! k)) /\
    augment result = Done result.
Proof.
  split.
  - destruct (augment payload) as [result | e] eqn:Hfirst; [| reflexivity].
    exact (augment_fixed payload result Hfirst).
  - intros result Hdone. pose proof (augment_fixed _ _ Hdone) as Hfix.
    apply augment_inv in Hdone as [_ ->].
    split; [| split; [| exact Hfix]].
    + eexists. rewrite own_set_prop, lookup_insert_ne by discriminate.
      apply forced_stream.
    + eexists. split; [rewrite own_set_prop; apply lookup_insert_eq |].
      intros k [d Hd]. unfold merged_options. rewrite spread2_lookup, Hd.
      destruct (own_enumerable _ !! k); eauto.
Qed.

(** ** The claims on forwarding *)

Lemma includes_query_cons (c : ascii) (rest : string) :
  includes "?" (String c rest) = Ascii.eqb c "?" || includes "?" rest.
Proof.
  change (includes "?" (String c rest))
    with (String.prefix "?" (String c rest) || includes "?" rest).
  f_equal. cbn [String.prefix].
  destruct (ascii_dec "?" c) as [<- | Hne].
  - destruct rest; reflexivity.
  - symmetry. apply Ascii.eqb_neq. congruence.
Qed.



(** C6, as the code has it.  A POST to a path that is neither a generation
    nor a chat path is sent once, and the object sent is the parsed body as
    it was received; a request whose body was not parsed is sent with the
    empty object of line 124. *)
Theorem C6_other_posts_untouched (axios : axios_config -> settled) (req : request) :
  method req = "POST" ->
  is_generation_or_chat (path req) = false ->
  exists config,
    snd (proxyHandler axios req) = [config] /\
    (forall received, body req = Some received -> c_data config = Some received) /\
    (body req = None -> c_data config = Some (Plain ∅)).
Proof.
  intros Hm Hp. exists (axiosConfig req (initial_payload req)).
  rewrite proxyHandler_sent, effective_payload_untouched by assumption.
  split; [reflexivity |].
  rewrite post_data by assumption.
  unfold initial_payload. rewrite Hm. simpl.
  split.
  - intros received ->. reflexivity.
  - intros ->. reflexivity.
Qed.

(** ** The claims on authentication and failures *)

Lemma validateToken_rejects (token : string) (req : request)
    (next : request -> reply * list axios_config) :
  authorization req ≠ Some ("Bearer " +:+ token) ->
  validateToken token req next = (Unauthorized, []).
Proof.
  intros Hne. unfold validateToken.
  destruct (authorization req) as [auth |]; [| reflexivity].
  destruct (String.eqb auth ("Bearer " +:+ token)) eqn:Heq.
  - apply String.eqb_eq in Heq. congruence.
  - rewrite orb_true_r. reflexivity.
Qed.

Lemma validateToken_passes (token : string) (req : request)
    (next : request -> reply * list axios_config) :
  authorization req = Some ("Bearer " +:+ token) ->
  validateToken token req next = next req.
Proof.
  intros Heq. unfold validateToken. rewrite Heq.
  rewrite String.eqb_refl. reflexivity.
Qed.

(** C3. On a protected route, a request whose Authorization header is absent
    or differs from ["Bearer " + token] gets 401 with an error payload and
    nothing is sent to the backend, whatever the rest of the chain is; a
    request with exactly that header is handed, as it is, to the proxy
    handler.  Both variants register the same chain. *)
Theorem C3_bearer_gate (route_matches : string -> string -> request -> bool)
    (env : option string) (axios : axios_config -> settled) (now : string)
    (req : request) :
  route_of route_matches req = Some Protected ->
  (authorization req ≠ Some ("Bearer " +:+ BEARER_TOKEN env) ->
     app route_matches env axios now req =
       Some (Json 401 (VObj {[ "error" := VStr "Unauthorized" ]}), []) /\
     Legacy.app route_matches env axios now req =
       Some (Json 401 (VObj {[ "error" := VStr "Unauthorized" ]}), []) /\
     forall next, validateToken (BEARER_TOKEN env) req next = (Unauthorized, [])) /\
  (authorization req = Some ("Bearer " +:+ BEARER_TOKEN env) ->
     app route_matches env axios now req = Some (proxyHandler axios req) /\
     Legacy.app route_matches env axios now req = Some (proxyHandler axios req) /\
     forall next, validateToken (BEARER_TOKEN env) req next = next req).
Proof.
  intros Hroute. unfold app, Legacy.app. rewrite Hroute. split.
  - intros Hne. rewrite validateToken_rejects by assumption.
    repeat split. intros next. apply validateToken_rejects. assumption.
  - intros Heq. rewrite validateToken_passes by assumption.
    repeat split. intros next. apply validateToken_passes. assumption.
Qed.

Lemma caught_reply (axios : axios_config -> settled) (req : request) (error : js_error) :
  caught axios req = Some error ->
  fst (proxyHandler axios req) = on_error (streamed req) error.
Proof.
  unfold caught, proxyHandler, streamed, outbound.
  destruct (effective_payload req) as [payload | e] eqn:Heff; cbn.
  - destruct (axios (axiosConfig req payload)); [discriminate |].
    intros [= ->]. reflexivity.
  - intros [= ->]. reflexivity.
Qed.

(** C4, as the code has it.  The handler sends at most one request.  What
    it catches is mapped as follows.  An error that carries the backend's
    response, on a request that was not made in streaming mode, gives that
    response's status and body.  An error without a response gives 503, with
    a message that names the backend address, when its code is ECONNREFUSED,
    and 500 with the error's message in every other case, the codes of other
    network failures (EHOSTUNREACH, ENOTFOUND) included. *)
Theorem C4_failure_mapping (axios : axios_config -> settled) (req : request) :
  (length (snd (proxyHandler axios req)) <= 1)%nat /\
  forall error, caught axios req = Some error ->
    (forall r, e_response error = Some r -> streamed req = false ->
       fst (proxyHandler axios req) = Json (r_status r) (r_data r)) /\
    (e_response error = None -> e_code error = Some "ECONNREFUSED" ->
       exists address,
         OLLAMA_URL = "http://" +:+ address /\
         fst (proxyHandler axios req) =
           Json 503 (VObj (list_to_map [
             ("error", VStr "Ollama service unavailable");
             ("message", VStr ("Make sure Ollama is running on " +:+ address)) ]))) /\
    (e_response error = None -> e_code error ≠ Some "ECONNREFUSED" ->
       fst (proxyHandler axios req) =
         Json 500 (VObj (list_to_map [
           ("error", VStr "Internal server error");
           ("message", VStr (e_message error)) ]))).
Proof.
  split.
  - rewrite proxyHandler_sent. destruct (effective_payload req); simpl; lia.
  - intros error Hcaught.
    rewrite (caught_reply axios req error Hcaught). unfold on_error. repeat split.
    + intros r -> ->. reflexivity.
    + intros -> Hcode. exists "localhost:11434".
      split; [reflexivity |].
      destruct (decide (e_code error = Some "ECONNREFUSED")); [reflexivity | contradiction].
    + intros -> Hcode.
      destruct (decide (e_code error = Some "ECONNREFUSED")); [contradiction | reflexivity].
Qed.

(** ** The claims on warmup, keepalive and health *)

Lemma prefix_app (a s : string) :
  String.prefix a s = true -> exists rest, s = a +:+ rest.
Proof.
  revert s. induction a as [| c a IH]; intros s Hp.
  - exists s. reflexivity.
  - destruct s as [| d s]; [discriminate |].
    cbn [String.prefix] in Hp.
    destruct (ascii_dec c d) as [-> | _]; [| discriminate].
    destruct (IH s Hp) as [rest ->]. exists rest. reflexivity.
Qed.

Lemma names_target_true (entry : value) :
  names_target entry = Done true -> names_configured_model entry.
Proof.
  unfold names_target, name_of.
  destruct entry as [| | | | | m]; try discriminate.
  cbn. destruct (m !! "name") as [[| | | s | |] |] eqn:Hname; try discriminate.
  intros [= Hs]. exists m, s. split; [reflexivity |]. split; [assumption |].
  apply orb_true_iff in Hs as [Heq | Hpre].
  - left. apply String.eqb_eq. assumption.
  - right. apply prefix_app in Hpre as [tag ->]. exists tag.
    unfold MODEL_NAME. reflexivity.
Qed.

Lemma some_names_target_true (l : list value) :
  some names_target l = Done true ->
  exists entry, entry ∈ l /\ names_configured_model entry.
Proof.
  induction l as [| x rest IH]; [discriminate |].
  cbn [some]. destruct (names_target x) as [[|] | e] eqn:Hx; cbn.
  - intros _. exists x. split; [left | apply names_target_true; assumption].
  - intros Hrest. destruct (IH Hrest) as (entry & Hin & Hname).
    exists entry. split; [right; assumption | assumption].
  - discriminate.
Qed.

Lemma model_listed_true (data : value) :
  model_listed data = Done true ->
  exists l entry, listing data = Some l /\ entry ∈ l /\ names_configured_model entry.
Proof.
  unfold model_listed, models_some, listing.
  destruct data as [| | | | | m]; try discriminate.
  destruct (m !! "models") as [[| | | | l |] |]; try discriminate.
  intros Hsome. apply some_names_target_true in Hsome as (entry & Hin & Hname).
  eauto.
Qed.

(** A successful warmup has seen a listing with a matching entry. *)
Lemma warmupModel_true (axios : axios_config -> settled) :
  fst (warmupModel axios) = true ->
  exists r, axios tags_query = Resolved r /\ model_listed (r_data r) = Done true.
Proof.
  unfold warmupModel, warmup_steps, await, lift. cbn.
  destruct (axios version_probe) as [v | e]; cbn; [| discriminate].
  destruct (axios tags_query) as [t | e]; cbn; [| discriminate].
  destruct (model_listed (r_data t)) as [[|] | e] eqn:Hlisted; cbn; try discriminate.
  intros _. exists t. split; [reflexivity | assumption].
Qed.

(** Without a successful check of the listing, warmup sends no generation. *)
Lemma warmupModel_no_generation (axios : axios_config -> settled) :
  (forall r, axios tags_query = Resolved r -> model_listed (r_data r) ≠ Done true) ->
  warmup_request ∉ snd (warmupModel axios).
Proof.
  intros Hno. unfold warmupModel, warmup_steps, await, lift. cbn.
  destruct (axios version_probe) as [v | e]; cbn.
  2: { intros [= ]%list_elem_of_singleton. }
  destruct (axios tags_query) as [t | e] eqn:Ht; cbn.
  2: { intros [[= ] | [= ]%list_elem_of_singleton]%elem_of_cons. }
  specialize (Hno t eq_refl).
  destruct (model_listed (r_data t)) as [[|] | e]; cbn; try contradiction.
  - intros [[= ] | [= ]%list_elem_of_singleton]%elem_of_cons.
  - intros [[= ] | [= ]%list_elem_of_singleton]%elem_of_cons.
Qed.

Lemma startServer_state (axios : axios_config -> settled) :
  startServer axios =
    ({| listening := true; keepalive := fst (warmupModel axios); exited := None |},
     snd (warmupModel axios)).
Proof. unfold startServer. destruct (warmupModel axios). reflexivity. Qed.

Lemma step_keepalive (p : process) (ev : event) :
  keepalive (fst (step p ev)) = keepalive p.
Proof.
  unfold step. destruct (exited p); [reflexivity |].
  destruct ev; [| reflexivity].
  destruct (keepalive p) eqn:Hk; simpl; congruence.
Qed.

Lemma run_keepalive (p : process) (evs : list event) :
  keepalive (fst (run p evs)) = keepalive p.
Proof.
  revert p. induction evs as [| ev rest IH]; intros p; [reflexivity |].
  cbn [run]. pose proof (step_keepalive p ev) as Hstep.
  destruct (step p ev) as [p1 out1]. specialize (IH p1).
  destruct (run p1 rest) as [p2 out2]. simpl in *. congruence.
Qed.

Lemma run_silent (p : process) (evs : list event) :
  keepalive p = false -> snd (run p evs) = [].
Proof.
  revert p. induction evs as [| ev rest IH]; intros p Hk; [reflexivity |].
  cbn [run]. pose proof (step_keepalive p ev) as Hstep.
  assert (Hout : snd (step p ev) = []).
  { unfold step. destruct (exited p); [reflexivity |].
    destruct ev; [rewrite Hk |]; reflexivity. }
  destruct (step p ev) as [p1 out1]. simpl in Hstep, Hout. subst out1.
  specialize (IH p1 ltac:(congruence)).
  destruct (run p1 rest) as [p2 out2]. simpl in *. assumption.
Qed.

Lemma run_ticks (p : process) (results : list settled) :
  keepalive p = true -> exited p = None ->
  run p (Tick <$> results) = (p, replicate (length results) keepalive_request).
Proof.
  intros Hk Hx. induction results as [| r rest IH]; [reflexivity |].
  cbn [fmap list_fmap run]. unfold step at 1. rewrite Hx, Hk.
  change (list_fmap settled event Tick rest) with (Tick <$> rest).
  rewrite IH. destruct r; reflexivity.
Qed.

(** C8. With the interval set and the process alive, every tick sends the
    minimal generation (prompt "ping", one token, not streamed) and leaves
    the process as it was, whether the ping resolved or was rejected: any
    number of ticks sends that many pings.  No event clears the interval;
    the process ends only by SIGINT or SIGTERM, with exit code 0. *)
Theorem C8_keepalive_loop (p : process) :
  keepalive p = true -> exited p = None ->
  (forall result, step p (Tick result) = (p, [keepalive_request])) /\
  (forall results,
     run p (Tick <$> results) = (p, replicate (length results) keepalive_request)) /\
  (forall evs, keepalive (fst (run p evs)) = true) /\
  (forall evs, exited (fst (run p evs)) = None \/
     (Signal ∈ evs /\ exited (fst (run p evs)) = Some 0)) /\
  c_url keepalive_request = OLLAMA_URL +:+ "/api/generate" /\
  exists data options,
    c_data keepalive_request = Some (Plain data) /\
    data !! "prompt" = Some (VStr "ping") /\
    data !! "stream" = Some (VBool false) /\
    data !! "options" = Some (VObj options) /\
    options !! "max_tokens" = Some (VNum 1%float).
Proof.
  intros Hk Hx.
  split.
  { intros result. unfold step. rewrite Hx, Hk. destruct result; reflexivity. }
  split.
  { intros results. apply run_ticks; assumption. }
  split.
  { intros evs. rewrite run_keepalive. assumption. }
  split.
  { intros evs. revert p Hk Hx.
    induction evs as [| ev rest IH]; intros p Hk Hx; [left; assumption |].
    cbn [run]. destruct ev as [result |].
    - unfold step. rewrite Hx, Hk.
      destruct (IH p Hk Hx) as [Hnone | [Hin Hsome]];
        destruct (run p rest) as [p2 out2]; simpl in *.
      + left. assumption.
      + right. split; [right; assumption | assumption].
    - right. split; [left |].
      unfold step. rewrite Hx.
      assert (Hdead : forall q, exited q = Some 0 -> exited (fst (run q rest)) = Some 0).
      { clear. induction rest as [| ev rest IH]; intros q Hq; [assumption |].
        cbn [run]. unfold step. rewrite Hq.
        specialize (IH q Hq). destruct (run q rest). assumption. }
      specialize (Hdead {| listening := false; keepalive := keepalive p; exited := Some 0 |} eq_refl).
      destruct (run _ rest). assumption. }
  split; [reflexivity |].
  eexists _, _. split; [reflexivity |].
  split; [reflexivity |]. split; [reflexivity |]. split; reflexivity.
Qed.

Lemma health_probes (axios : axios_config -> settled) (now : string) :
  exists rest, snd (health axios now) = version_probe :: rest.
Proof.
  unfold health, health_steps, await, lift. cbn.
  destruct (axios version_probe) as [v | e]; cbn; [| eauto].
  destruct (axios (axios_get _ _)) as [t | e]; cbn; [| eauto].
  destruct (model_listed (r_data t)) as [b | e]; cbn; [| eauto].
  destruct (r_data v); cbn; eauto.
Qed.

Lemma health_down (axios : axios_config -> settled) (now : string) (error : js_error) :
  axios version_probe = Rejected error ->
  health axios now =
    (Json 503 (VObj (list_to_map [
       ("status", VStr "unhealthy");
       ("timestamp", VStr now);
       ("error", VStr (e_message error)) ])), [version_probe]).
Proof.
  intros Hdown. unfold health, health_steps, await. cbn. rewrite Hdown. reflexivity.
Qed.

(** C10. The legacy [/health] replies 200 with exactly [status: 'healthy'],
    the timestamp and the backend URL, and sends nothing to the backend, so
    it does not depend on the backend at all.  The [/health] of [server.js]
    starts by probing [/api/version]; when that probe is rejected it replies
    503 with the error's message in an [error] field, where the legacy
    variant still says healthy.  Whenever it replies 503, the body has an
    [error] field. *)
Theorem C10_legacy_health (route_matches : string -> string -> request -> bool)
    (env : option string) (axios : axios_config -> settled) (now : string)
    (req : request) :
  route_of route_matches req = Some HealthCheck ->
  Legacy.app route_matches env axios now req =
    Some (Json 200 (VObj (list_to_map [
            ("status", VStr "healthy");
            ("timestamp", VStr now);
            ("ollama_url", VStr OLLAMA_URL) ])), []) /\
  (exists reply rest,
     app route_matches env axios now req = Some (reply, version_probe :: rest) /\
     forall body, reply = Json 503 body ->
       exists fields message, body = VObj fields /\ fields !! "error" = Some (VStr message)) /\
  (forall error, axios version_probe = Rejected error ->
     app route_matches env axios now req =
       Some (Json 503 (VObj (list_to_map [
               ("status", VStr "unhealthy");
               ("timestamp", VStr now);
               ("error", VStr (e_message error)) ])), [version_probe])).
Proof.
  intros Hroute. unfold app, Legacy.app. rewrite Hroute.
  split; [reflexivity |]. split.
  - destruct (health_probes axios now) as [rest Hrest].
    exists (fst (health axios now)), rest. split.
    + rewrite <- Hrest. destruct (health axios now). reflexivity.
    + unfold health. cbn [fst].
      destruct (outcome (health_steps axios now)) as [v | e].
      * discriminate.
      * intros body [= <-]. eexists _, _. split; reflexivity.
  - intros error Hdown. rewrite (health_down axios now error Hdown). reflexivity.
Qed.

(** ** The scenarios, through the theorems *)






Lemma C3_bearer_gate_witness :
  app literal_match None backend_up timestamp anonymous_tags =
    Some (Json 401 (VObj {[ "error" := VStr "Unauthorized" ]}), []) /\
  app literal_match None backend_up timestamp pull_request =
    Some (proxyHandler backend_up pull_request).
Proof.
  split.
  - refine (proj1 (proj1 (C3_bearer_gate literal_match None backend_up timestamp
                            anonymous_tags _) _)).
    + reflexivity.
    + discriminate.
  - refine (proj1 (proj2 (C3_bearer_gate literal_match None backend_up timestamp
                            pull_request _) _)).
    + reflexivity.
    + reflexivity.
Defined.

(** Ollama not running: 503.  A 404 of the backend on a request that is not
    streamed: the 404 and its body. *)
Lemma C4_failure_mapping_witness :
  (exists address,
     OLLAMA_URL = "http://" +:+ address /\
     fst (proxyHandler backend_down pull_request) =
       Json 503 (VObj (list_to_map [
         ("error", VStr "Ollama service unavailable");
         ("message", VStr ("Make sure Ollama is running on " +:+ address)) ]))) /\
  fst (proxyHandler backend_answers_404 pull_request) =
    Json 404 (VObj {[ "error" := VStr "model 'mistral:7b' not found" ]}).
Proof.
  split.
  - refine (proj1 (proj2 (proj2 (C4_failure_mapping backend_down pull_request) refused _)) _ _);
      reflexivity.
  - refine (proj1 (proj2 (C4_failure_mapping backend_answers_404 pull_request) _ _)
              not_found _ _); reflexivity.
Defined.

(** C4 as it is written does not hold: when the backend cannot be reached
    for another reason than a refused connection (here: no route to the
    host), the reply is 500, not 503. *)
Lemma C4_unreachable_counterexample :
  ~ (forall (axios : axios_config -> settled) (req : request) (error : js_error),
       caught axios req = Some error ->
       e_response error = None ->
       e_code error = Some "ECONNREFUSED" \/ e_code error = Some "EHOSTUNREACH" ->
       exists body, fst (proxyHandler axios req) = Json 503 body).
Proof.
  intros Hclaim.
  destruct (Hclaim backend_unreachable pull_request unreachable eq_refl eq_refl
              (or_intror eq_refl)) as [body Hreply].
  vm_compute in Hreply. discriminate Hreply.
Qed.

Lemma tags_with_query_sent :
  snd (proxyHandler backend_up tags_with_query) =
    [axiosConfig tags_with_query (Plain ∅)].
Proof. vm_compute. reflexivity. Qed.



Lemma C6_other_posts_untouched_witness :
  exists config,
    snd (proxyHandler backend_up pull_request) = [config] /\
    c_data config = Some pull_body.
Proof.
  destruct (C6_other_posts_untouched backend_up pull_request eq_refl eq_refl)
    as (config & Hsent & Hsome & _).
  exists config. split; [exact Hsent |]. apply Hsome. reflexivity.
Defined.

(** C6 as it is written does not hold: a POST /api/pull that arrives without
    a parsed body reaches the backend with the empty object as its body. *)
Lemma C6_absent_body_counterexample :
  ~ (forall (axios : axios_config -> settled) (req : request) (config : axios_config),
       method req = "POST" ->
       is_generation_or_chat (path req) = false ->
       config ∈ snd (proxyHandler axios req) ->
       c_data config = body req).
Proof.
  intros Hclaim.
  specialize (Hclaim backend_up pull_without_body
                (axiosConfig pull_without_body (Plain ∅)) eq_refl eq_refl).
  assert (Hsent : snd (proxyHandler backend_up pull_without_body) =
                    [axiosConfig pull_without_body (Plain ∅)])
    by (vm_compute; reflexivity).
  rewrite Hsent in Hclaim. specialize (Hclaim (list_elem_of_here _ _)).
  vm_compute in Hclaim. discriminate Hclaim.
Qed.

Lemma backend_without_model_listing (r : axios_response) (l : list value) (entry : value) :
  backend_without_model tags_query = Resolved r ->
  listing (r_data r) = Some l -> entry ∈ l -> ~ names_configured_model entry.
Proof.
  intros [= <-] [= <-] Hin%list_elem_of_singleton (m & s & Hentry & Hname & Hs).
  subst entry. injection Hentry as <-.
  rewrite lookup_singleton_eq in Hname. injection Hname as <-.
  destruct Hs as [Hs | [tag Hs]]; discriminate Hs.
Qed.

(** Two ticks, one answered and one refused: two pings, the same process. *)
Lemma C8_keepalive_loop_witness :
  run warmed_up [Tick (backend_up keepalive_request); Tick (backend_down keepalive_request)] =
    (warmed_up, [keepalive_request; keepalive_request]).
Proof.
  exact (proj1 (proj2 (C8_keepalive_loop warmed_up eq_refl eq_refl))
           [backend_up keepalive_request; backend_down keepalive_request]).
Defined.

Lemma chat_augmented :
  augment (Plain (list_to_map [
    ("model", VStr "mistral:7b");
    ("stream", VStr "true");
    ("options", VObj (list_to_map [
       ("temperature", VNum 0.2%float); ("seed", VNum 42%float) ])) ])) =
  Done (Plain chat_forwarded).
Proof. vm_compute. reflexivity. Qed.

Lemma C9_augment_idempotent_witness :
  augment (Plain chat_forwarded) = Done (Plain chat_forwarded).
Proof.
  exact (proj2 (proj2 (proj2 (C9_augment_idempotent _) (Plain chat_forwarded) chat_augmented))).
Defined.

(** GET /health with the backend down: healthy in the legacy variant, 503
    with an error in [server.js]. *)
Lemma C10_legacy_health_witness :
  Legacy.app literal_match None backend_down timestamp health_request =
    Some (Json 200 (VObj (list_to_map [
            ("status", VStr "healthy");
            ("timestamp", VStr timestamp);
            ("ollama_url", VStr OLLAMA_URL) ])), []) /\
  app literal_match None backend_down timestamp health_request =
    Some (Json 503 (VObj (list_to_map [
            ("status", VStr "unhealthy");
            ("timestamp", VStr timestamp);
            ("error", VStr "connect ECONNREFUSED 127.0.0.1:11434") ])), [version_probe]).
Proof.
  destruct (C10_legacy_health literal_match None backend_down timestamp health_request)
    as (Hlegacy & _ & Hdown).
  - reflexivity.
  - split; [exact Hlegacy |]. exact (Hdown refused eq_refl).
Defined.

(** ** Two corner cases of the augmentation *)

(** A body with a property named [hasOwnProperty] makes line 129 throw:
    nothing is sent, and the client gets the 500 of the [catch] block. *)
Example shadowed_method_is_an_internal_error :
  proxyHandler backend_up
    {| method := "POST"; url := "/api/generate"; authorization := credential;
       body := Some (Plain {[ "hasOwnProperty" := VNum 1%float ]}) |} =
  (Json 500 (VObj (list_to_map [
     ("error", VStr "Internal server error");
     ("message", VStr "payload.hasOwnProperty is not a function") ])), []).
Proof. vm_compute. reflexivity. Qed.

(** A body that is an array keeps its elements and gets the two properties. *)
Example array_body_augmented :
  augment (Array [VStr "hi"] ∅) =
  Done (Array [VStr "hi"]
          (list_to_map [ ("stream", VBool false); ("options", VObj getOptimizedParams) ])).
Proof. vm_compute. reflexivity. Qed.

(** * Further properties of the code *)

(** ** The augmentation (server.js 127-141) *)

(** X1. The augmentation touches [stream] and [options] only: every other
    property of the body is forwarded as it came, an object stays an object
    and an array keeps its elements. *)
Theorem augment_keeps_other_properties (payload result : object) :
  augment payload = Done result ->
  (forall k, k ≠ "stream" -> k ≠ "options" -> own result !! k = own payload !! k) /\
  (forall m, payload = Plain m -> exists m', result = Plain m') /\
  (forall l extra, payload = Array l extra -> exists extra', result = Array l extra').
Proof.
  intros Hdone. apply augment_inv in Hdone as [_ ->]. split; [| split].
  - intros k Hs Ho.
    rewrite own_set_prop, lookup_insert_ne by congruence.
    apply forced_other. assumption.
  - intros m ->. unfold forced.
    destruct (is_not_true _); simpl; eauto.
  - intros l extra ->. unfold forced.
    destruct (is_not_true _); simpl; eauto.
Qed.

Lemma augment_keeps_other_properties_witness :
  own (Plain chat_forwarded) !! "model" = Some (VStr "mistral:7b").
Proof.
  rewrite (proj1 (augment_keeps_other_properties _ _ chat_augmented) "model");
    [reflexivity | discriminate | discriminate].
Defined.

(** X2. A generation or chat POST whose body has a property named
    [hasOwnProperty] is never forwarded: the handler replies 500 with the
    TypeError's message.  It is the only way for such a POST not to be
    forwarded. *)
Theorem shadowed_hasOwnProperty_gives_500 (axios : axios_config -> settled)
    (req : request) :
  method req = "POST" ->
  is_generation_or_chat (path req) = true ->
  (snd (proxyHandler axios req) = [] <->
     is_Some (own (initial_payload req) !! "hasOwnProperty")) /\
  (is_Some (own (initial_payload req) !! "hasOwnProperty") ->
     proxyHandler axios req =
       (Json 500 (VObj (list_to_map [
          ("error", VStr "Internal server error");
          ("message", VStr "payload.hasOwnProperty is not a function") ])), [])).
Proof.
  intros Hm Hp. split.
  - rewrite proxyHandler_sent, effective_payload_augmented by assumption.
    destruct (own (initial_payload req) !! "hasOwnProperty") as [v |] eqn:Hh.
    + rewrite augment_throws by (rewrite Hh; eauto). split; eauto.
    + rewrite augment_done by assumption.
      split; [discriminate | intros [? ?]; discriminate].
  - intros Hsome. unfold proxyHandler, outbound.
    rewrite effective_payload_augmented by assumption.
    rewrite augment_throws by assumption. reflexivity.
Qed.

Lemma shadowed_hasOwnProperty_gives_500_witness :
  proxyHandler backend_up
    {| method := "POST"; url := "/api/chat"; authorization := credential;
       body := Some (Plain {[ "hasOwnProperty" := VBool true ]}) |} =
  (Json 500 (VObj (list_to_map [
     ("error", VStr "Internal server error");
     ("message", VStr "payload.hasOwnProperty is not a function") ])), []).
Proof.
  apply (shadowed_hasOwnProperty_gives_500 backend_up); [reflexivity | reflexivity |].
  exists (VBool true). reflexivity.
Defined.

Lemma spread2_nothing (a : gmap string value) : spread2 a ∅ = a.
Proof. unfold spread2. apply (left_id_L ∅ (∪)). Qed.

(** X3. Options that carry no property of their own count as no options:
    when the caller's [options] is missing, [null], a boolean, a number, the
    empty string, the empty array or the empty object, the forwarded options
    are exactly the defaults. *)
Theorem options_without_properties_give_defaults (payload result : object) :
  augment payload = Done result ->
  (own payload !! "options" = None \/
   exists v, own payload !! "options" = Some v /\
     (v = VNull \/ (exists b, v = VBool b) \/ (exists x, v = VNum x) \/
      v = VStr "" \/ v = VArr [] \/ v = VObj ∅)) ->
  own result !! "options" = Some (VObj getOptimizedParams).
Proof.
  intros Hdone Hopts. apply augment_inv in Hdone as [_ ->].
  rewrite own_set_prop, lookup_insert_eq. do 2 f_equal.
  unfold merged_options. rewrite options_or_empty_forced.
  assert (Hnone : own_enumerable (options_or_empty payload) = ∅).
  { unfold options_or_empty.
    destruct Hopts as [-> | (v & -> & Hv)]; [reflexivity |].
    destruct Hv as [-> | [[b ->] | [[x ->] | [-> | [-> | ->]]]]]; try reflexivity.
    - destruct b; reflexivity.
    - destruct (truthy (VNum x)); reflexivity. }
  rewrite Hnone. apply spread2_nothing.
Qed.

Lemma options_without_properties_give_defaults_witness :
  exists result,
    augment (Plain {[ "prompt" := VStr "hi"; "options" := VNull ]}) = Done result /\
    own result !! "options" = Some (VObj getOptimizedParams).
Proof.
  destruct (augment (Plain {[ "prompt" := VStr "hi"; "options" := VNull ]}))
    as [result | e] eqn:Hdone.
  - exists result. split; [reflexivity |].
    apply (options_without_properties_give_defaults _ result Hdone).
    right. exists VNull. split; [reflexivity | left; reflexivity].
  - exfalso. vm_compute in Hdone. discriminate Hdone.
Defined.

(** ** Streaming and the requests that are not augmented (server.js 124-177) *)

Lemma stream_requested_augmented (payload result : object) :
  augment payload = Done result ->
  stream_requested result = negb (is_not_true (own payload !! "stream")).
Proof.
  intros Hdone. apply augment_inv in Hdone as [_ ->].
  unfold stream_requested.
  rewrite own_set_prop, lookup_insert_ne, forced_stream by discriminate.
  reflexivity.
Qed.

(** X4. On a generation or chat POST the backend is called in streaming mode,
    and its answer piped to the client, exactly when the caller's [stream]
    is the boolean [true]; in every other case the answer is sent as JSON
    with status 200, whatever 2xx status the backend answered with. *)
Theorem streaming_only_on_true (axios : axios_config -> settled) (req : request)
    (payload : object) (config : axios_config) :
  method req = "POST" ->
  is_generation_or_chat (path req) = true ->
  outbound req = Done (payload, config) ->
  (own (initial_payload req) !! "stream" = Some (VBool true) ->
     c_responseType config = Some "stream" /\
     forall r, axios config = Resolved r ->
       proxyHandler axios req = (Piped "application/json" (r_data r), [config])) /\
  (own (initial_payload req) !! "stream" ≠ Some (VBool true) ->
     c_responseType config = None /\
     forall r, axios config = Resolved r ->
       proxyHandler axios req = (Json 200 (r_data r), [config])).
Proof.
  intros Hm Hp Hout.
  assert (Hreq : stream_requested payload =
                   negb (is_not_true (own (initial_payload req) !! "stream")) /\
                 config = axiosConfig req payload).
  { unfold outbound in Hout.
    rewrite effective_payload_augmented in Hout by assumption.
    destruct (augment (initial_payload req)) as [result | e] eqn:Haug; [| discriminate].
    injection Hout as <- <-. split; [| reflexivity].
    apply stream_requested_augmented. assumption. }
  destruct Hreq as [Hstream ->].
  split.
  - intros Htrue. rewrite Htrue in Hstream. simpl in Hstream.
    split; [unfold axiosConfig; simpl; rewrite Hstream; reflexivity |].
    intros r Hr. unfold proxyHandler. rewrite Hout, Hr, Hstream. reflexivity.
  - intros Hne.
    assert (Hnot : is_not_true (own (initial_payload req) !! "stream") = true).
    { destruct (own (initial_payload req) !! "stream") as [[| [|] | | | |] |];
        try reflexivity. contradiction. }
    rewrite Hnot in Hstream. simpl in Hstream.
    split; [unfold axiosConfig; simpl; rewrite Hstream; reflexivity |].
    intros r Hr. unfold proxyHandler. rewrite Hout, Hr, Hstream. reflexivity.
Qed.

(** The chat scenario asks for ["true"], a string: it is not streamed, and
    a 201 of the backend reaches the client as a 200. *)
Lemma streaming_only_on_true_witness :
  proxyHandler (fun _ => Resolved {| r_status := 201; r_data := VStr "done" |})
    chat_request =
  (Json 200 (VStr "done"), [axiosConfig chat_request (Plain chat_forwarded)]).
Proof.
  refine (proj2 (proj2 (streaming_only_on_true _ chat_request (Plain chat_forwarded)
                          (axiosConfig chat_request (Plain chat_forwarded)) _ _ _) _)
            {| r_status := 201; r_data := VStr "done" |} _).
  - reflexivity.
  - reflexivity.
  - vm_compute. reflexivity.
  - vm_compute. discriminate.
  - reflexivity.
Defined.



(** ** The path test (server.js 127) and the forwarded URL (server.js 152) *)

Lemma includes_unfold (needle hay : string) :
  includes needle hay =
    String.prefix needle hay ||
    match hay with
    | EmptyString => false
    | String _ rest => includes needle rest
    end.
Proof. destruct hay; reflexivity. Qed.

Lemma prefix_append (a b : string) : String.prefix a (a +:+ b) = true.
Proof.
  induction a as [| c a IH]; [destruct b; reflexivity |].
  change (String c a +:+ b) with (String c (a +:+ b)).
  cbn [String.prefix]. destruct (ascii_dec c c); [exact IH | contradiction].
Qed.

Lemma append_assoc (a b c : string) : (a +:+ b) +:+ c = a +:+ (b +:+ c).
Proof.
  induction a as [| x a IH]; [reflexivity |].
  change (String x ((a +:+ b) +:+ c) = String x (a +:+ (b +:+ c))).
  f_equal. exact IH.
Qed.

Lemma includes_occurrence (needle hay : string) :
  includes needle hay = true <-> exists a b, hay = a +:+ needle +:+ b.
Proof.
  split.
  - induction hay as [| c rest IH]; rewrite includes_unfold;
      intros [Hpre | Hrest]%orb_true_iff; try discriminate.
    + apply prefix_app in Hpre as [b ->]. exists "", b. reflexivity.
    + apply prefix_app in Hpre as [b Hb]. exists "", b. exact Hb.
    + destruct (IH Hrest) as (a & b & ->). exists (String c a), b. reflexivity.
  - intros (a & b & ->). induction a as [| c a IH].
    + change ("" +:+ needle +:+ b) with (needle +:+ b).
      rewrite includes_unfold, prefix_append. reflexivity.
    + change (String c a +:+ needle +:+ b) with (String c (a +:+ needle +:+ b)).
      rewrite includes_unfold. cbv iota. rewrite IH. apply orb_true_r.
Qed.

(** X6. The handler decides by substring: a path is a generation or chat
    path exactly when ["/generate"] or ["/chat"] occurs somewhere in it. *)
Theorem path_test_is_substring_test (p : string) :
  is_generation_or_chat p = true <->
  exists a b, p = a +:+ "/generate" +:+ b \/ p = a +:+ "/chat" +:+ b.
Proof.
  unfold is_generation_or_chat. rewrite orb_true_iff, !includes_occurrence.
  split.
  - intros [(a & b & ->) | (a & b & ->)]; exists a, b; auto.
  - intros (a & b & [-> | ->]); [left | right]; eauto.
Qed.

Lemma slash_needle_absent (needle hay : string) :
  includes "/" hay = false -> includes (String "/" needle) hay = false.
Proof.
  induction hay as [| c rest IH]; [reflexivity |].
  rewrite (includes_unfold "/"), (includes_unfold (String "/" needle)).
  intros [Hhere Hrest]%orb_false_elim.
  rewrite (IH Hrest), orb_false_r.
  cbn [String.prefix] in *. destruct (ascii_dec "/" c); [| reflexivity].
  destruct rest; discriminate.
Qed.

(** X7. On the blob route the digest is one path segment.  Such a path is a
    generation or chat path exactly when the digest starts with ["generate"]
    or ["chat"]; a [sha256:] digest never does, so a blob upload is never
    augmented. *)
Theorem blob_paths (digest : string) :
  includes "/" digest = false ->
  is_generation_or_chat ("/api/blobs/" +:+ digest) =
    String.prefix "generate" digest || String.prefix "chat" digest /\
  forall hex, digest = "sha256:" +:+ hex ->
    is_generation_or_chat ("/api/blobs/" +:+ digest) = false.
Proof.
  intros Hseg.
  assert (Hpath : is_generation_or_chat ("/api/blobs/" +:+ digest) =
                    String.prefix "generate" digest || String.prefix "chat" digest).
  { unfold is_generation_or_chat.
    change ("/api/blobs/" +:+ digest)
      with (String "/" (String "a" (String "p" (String "i" (String "/" (String "b"
             (String "l" (String "o" (String "b" (String "s" (String "/" digest))))))))))).
    do 11 (rewrite (includes_unfold "/generate" (String _ _));
           rewrite (includes_unfold "/chat" (String _ _))).
    rewrite (slash_needle_absent "generate" digest Hseg).
    rewrite (slash_needle_absent "chat" digest Hseg).
    cbn. rewrite !orb_false_r. reflexivity. }
  split; [exact Hpath |].
  intros hex ->. rewrite Hpath. reflexivity.
Qed.

Lemma blob_paths_witness :
  is_generation_or_chat ("/api/blobs/" +:+ "sha256:29fdb92e57cf") = false /\
  is_generation_or_chat ("/api/blobs/" +:+ "chat") = true.
Proof.
  split.
  - exact (proj2 (blob_paths "sha256:29fdb92e57cf" eq_refl) "29fdb92e57cf" eq_refl).
  - rewrite (proj1 (blob_paths "chat" eq_refl)). reflexivity.
Defined.

(** ** Warmup (server.js 39-95) *)

Ltac warmup_cases axios :=
  unfold warmupModel, warmup_steps, await, lift; cbn;
  destruct (axios version_probe) as [?v | ?e] eqn:Hversion; cbn;
  [ destruct (axios tags_query) as [?t | ?e] eqn:Htags; cbn;
    [ destruct (model_listed (r_data t)) as [[|] | ?e] eqn:Hlisted; cbn;
      [ destruct (axios warmup_request) as [?w | ?e] eqn:Hwarm; cbn;
        [ destruct (response_text (r_data w)) as [?text | ?e] eqn:Htext; cbn | ]
      | | ]
    | ]
  | ].

(** X8. Warmup reports success exactly when the version probe, the listing
    and the generation are all answered, the listing names the configured
    model and the generation's answer has a [response] string; it has then
    sent these three requests, in this order.  In particular a generation
    that is answered without a [response] text counts as a failed warmup. *)
Theorem warmup_succeeds_iff (axios : axios_config -> settled) :
  (fst (warmupModel axios) = true <->
     exists v t w text,
       axios version_probe = Resolved v /\
       axios tags_query = Resolved t /\
       model_listed (r_data t) = Done true /\
       axios warmup_request = Resolved w /\
       response_text (r_data w) = Done text) /\
  (fst (warmupModel axios) = true ->
     snd (warmupModel axios) = [version_probe; tags_query; warmup_request]).
Proof.
  split; [split |].
  - warmup_cases axios; try discriminate.
    intros _. exists v, t, w, text. auto.
  - intros (v' & t' & w' & text' & Hv & Ht & Hl & Hw & Hx).
    unfold warmupModel, warmup_steps, await, lift. cbn.
    rewrite Hv. cbn. rewrite Ht. cbn. rewrite Hl. cbn. rewrite Hw. cbn.
    rewrite Hx. reflexivity.
  - warmup_cases axios; try discriminate. reflexivity.
Qed.

Lemma warmup_succeeds_iff_witness :
  snd (warmupModel backend_ready) = [version_probe; tags_query; warmup_request] /\
  ~ (fst (warmupModel backend_without_text) = true).
Proof.
  split.
  - apply (proj2 (warmup_succeeds_iff backend_ready)). reflexivity.
  - intros Hok.
    apply (proj1 (proj1 (warmup_succeeds_iff backend_without_text))) in Hok
      as (v & t & w & text & _ & _ & _ & [= <-] & Htext).
    discriminate Htext.
Defined.

(** X9. Warmup sends at most three requests, always in the order version
    probe, listing, generation, and stops at the first one that fails: when
    the backend is down, the version probe is the only request. *)
Theorem warmup_requests_in_order (axios : axios_config -> settled) :
  (exists rest, [version_probe; tags_query; warmup_request] =
                  (snd (warmupModel axios) ++ rest)%list) /\
  (exists rest, snd (warmupModel axios) = version_probe :: rest) /\
  (forall error, axios version_probe = Rejected error ->
     warmupModel axios = (false, [version_probe])) /\
  (forall v error, axios version_probe = Resolved v -> axios tags_query = Rejected error ->
     warmupModel axios = (false, [version_probe; tags_query])).
Proof.
  split; [| split; [| split]].
  - warmup_cases axios; eexists; reflexivity.
  - warmup_cases axios; eexists; reflexivity.
  - intros error Hdown. unfold warmupModel, warmup_steps, await. cbn.
    rewrite Hdown. reflexivity.
  - intros v error Hup Hdown. unfold warmupModel, warmup_steps, await. cbn.
    rewrite Hup. cbn. rewrite Hdown. reflexivity.
Qed.

Lemma warmup_requests_in_order_witness :
  warmupModel backend_down = (false, [version_probe]).
Proof.
  exact (proj1 (proj2 (proj2 (warmup_requests_in_order backend_down))) refused eq_refl).
Defined.

(** ** The listing check (server.js 49-51 and 225-227) *)

Lemma names_target_well_formed (entry : value) :
  well_formed_entry entry -> exists b, names_target entry = Done b.
Proof.
  intros (m & s & -> & Hname). unfold names_target, name_of. cbn.
  rewrite Hname. eauto.
Qed.

Lemma names_target_throws (entry : value) :
  ~ well_formed_entry entry -> exists e, names_target entry = Throw e.
Proof.
  intros Hbad. unfold names_target, name_of.
  destruct entry as [| | | | | m]; cbn; eauto.
  destruct (m !! "name") as [[| | | s | |] |] eqn:Hname; eauto.
  exfalso. apply Hbad. exists m, s. auto.
Qed.

Lemma names_target_complete (entry : value) :
  names_configured_model entry -> names_target entry = Done true.
Proof.
  intros (m & s & -> & Hname & Hs). unfold names_target, name_of. cbn.
  rewrite Hname. f_equal. apply orb_true_iff.
  destruct Hs as [-> | [tag ->]].
  - left. apply String.eqb_refl.
  - right. rewrite <- append_assoc. apply prefix_append.
Qed.

Lemma some_names_target_complete (l : list value) :
  Forall well_formed_entry l ->
  (exists entry, entry ∈ l /\ names_configured_model entry) ->
  some names_target l = Done true.
Proof.
  induction 1 as [| x rest Hx Hrest IH]; intros (entry & Hin & Hname).
  - apply elem_of_nil in Hin. contradiction.
  - cbn [some]. apply elem_of_cons in Hin as [-> | Hin].
    + rewrite (names_target_complete _ Hname). reflexivity.
    + destruct (names_target_well_formed x Hx) as [[|] ->]; cbn; [reflexivity |].
      apply IH. eauto.
Qed.

Lemma some_names_target_total (l : list value) :
  Forall well_formed_entry l -> exists b, some names_target l = Done b.
Proof.
  induction 1 as [| x rest Hx Hrest [b IH]]; [exists false; reflexivity |].
  cbn [some]. destruct (names_target_well_formed x Hx) as [[|] ->]; cbn; eauto.
Qed.

(** X10. On a listing whose entries all are objects with a string name, the
    check never throws, and it answers [true] exactly when some entry is
    named like the configured model: "mistral:7b" itself or "mistral:7b:"
    followed by anything. *)
Theorem model_listed_on_well_formed_listing (data : value) (l : list value) :
  listing data = Some l ->
  Forall well_formed_entry l ->
  (exists b, model_listed data = Done b) /\
  (model_listed data = Done true <->
     exists entry, entry ∈ l /\ names_configured_model entry).
Proof.
  intros Hl Hwf.
  assert (Hsome : model_listed data = some names_target l).
  { unfold listing in Hl. unfold model_listed, models_some.
    destruct data as [| | | | | m]; try discriminate.
    destruct (m !! "models") as [[| | | | l' |] |]; try discriminate.
    congruence. }
  rewrite Hsome. split; [apply some_names_target_total; assumption |].
  split; [apply some_names_target_true | apply some_names_target_complete; assumption].
Qed.

(** A tag after the colon of the model name is not a tag of the model: the
    name has to continue with a second colon. *)
Lemma model_listed_on_well_formed_listing_witness :
  model_listed (VObj {[ "models" := VArr [VObj {[ "name" := VStr "mistral:7b:q4" ]}] ]}) =
    Done true /\
  ~ (model_listed (VObj {[ "models" := VArr [VObj {[ "name" := VStr "mistral:7b-instruct" ]}] ]}) =
       Done true).
Proof.
  split.
  - apply (model_listed_on_well_formed_listing _ [VObj {[ "name" := VStr "mistral:7b:q4" ]}]).
    + reflexivity.
    + repeat constructor. eexists _, _. split; reflexivity.
    + eexists. split; [apply list_elem_of_here |].
      eexists _, _. split; [reflexivity |]. split; [reflexivity |].
      right. exists "q4". reflexivity.
  - vm_compute. discriminate.
Defined.

Lemma listed_model_is_found (data : value) (l : list value) :
  listing data = Some l ->
  Forall well_formed_entry l ->
  (exists entry, entry ∈ l /\ names_configured_model entry) ->
  model_listed data = Done true.
Proof.
  intros Hl Hwf Hex. unfold listing in Hl. unfold model_listed, models_some.
  destruct data as [| | | | | m]; try discriminate.
  destruct (m !! "models") as [[| | | | l' |] |]; try discriminate.
  injection Hl as ->. apply some_names_target_complete; assumption.
Qed.

(** C7.  Once the backend has answered the version probe, warmup queries the
    listing of [/api/tags].  An entry whose name is the model name, or starts
    with it and a colon, is accepted: warmup goes on to its generation and,
    when that is answered with a text, succeeds and [startServer] sets the
    keepalive interval.  A warmup that succeeds has found such an entry.
    When the listing has no such entry, warmup returns [false] without
    sending its generation, the keepalive interval is never set (no ping is
    ever sent, whatever happens later), and the server that was started
    before warmup is listening. *)
Theorem C7_missing_model (axios : axios_config -> settled) :
  (forall v, axios version_probe = Resolved v ->
     exists rest, snd (warmupModel axios) = version_probe :: tags_query :: rest) /\
  (forall v t l,
     axios version_probe = Resolved v -> axios tags_query = Resolved t ->
     listing (r_data t) = Some l -> Forall well_formed_entry l ->
     (exists entry, entry ∈ l /\ names_configured_model entry) ->
     snd (warmupModel axios) = [version_probe; tags_query; warmup_request] /\
     forall w text,
       axios warmup_request = Resolved w -> response_text (r_data w) = Done text ->
       fst (warmupModel axios) = true /\
       keepalive (fst (startServer axios)) = true) /\
  (fst (warmupModel axios) = true ->
     exists r l entry, axios tags_query = Resolved r /\ listing (r_data r) = Some l /\
       entry ∈ l /\ names_configured_model entry) /\
  ((forall r l, axios tags_query = Resolved r -> listing (r_data r) = Some l ->
      forall entry, entry ∈ l -> ~ names_configured_model entry) ->
   fst (warmupModel axios) = false /\
   (warmup_request ∉ snd (warmupModel axios)) /\
   keepalive (fst (startServer axios)) = false /\
   listening (fst (startServer axios)) = true /\
   exited (fst (startServer axios)) = None /\
   forall evs, snd (run (fst (startServer axios)) evs) = []).
Proof.
  assert (Hfound : fst (warmupModel axios) = true ->
     exists r l entry, axios tags_query = Resolved r /\ listing (r_data r) = Some l /\
       entry ∈ l /\ names_configured_model entry).
  { intros Hok. apply warmupModel_true in Hok as (r & Hr & Hlisted).
    apply model_listed_true in Hlisted as (l & entry & Hl & Hin & Hname).
    exists r, l, entry. auto. }
  split; [| split; [| split; [exact Hfound |]]].
  - intros v' Hv. revert Hv. warmup_cases axios; intros [= ]; eauto.
  - intros v' t' l Hv Ht Hl Hwf Hex.
    pose proof (listed_model_is_found _ l Hl Hwf Hex) as Hlisted.
    split.
    + unfold warmupModel, warmup_steps, await, lift. cbn.
      rewrite Hv. cbn. rewrite Ht. cbn. rewrite Hlisted. cbn.
      destruct (axios warmup_request) as [w | e]; cbn; [| reflexivity].
      destruct (response_text (r_data w)); reflexivity.
    + intros w text Hw Hx.
      assert (Hok : fst (warmupModel axios) = true).
      { unfold warmupModel, warmup_steps, await, lift. cbn.
        rewrite Hv. cbn. rewrite Ht. cbn. rewrite Hlisted. cbn. rewrite Hw. cbn.
        rewrite Hx. reflexivity. }
      split; [exact Hok |]. rewrite startServer_state. exact Hok.
  - intros Hnone.
    assert (Hfalse : fst (warmupModel axios) = false).
    { destruct (fst (warmupModel axios)) eqn:Hw; [| reflexivity].
      destruct (Hfound eq_refl) as (r & l & entry & Hr & Hl & Hin & Hname).
      exfalso. exact (Hnone r l Hr Hl entry Hin Hname). }
    split; [exact Hfalse |].
    split.
    { apply warmupModel_no_generation. intros r Hr Hlisted.
      apply model_listed_true in Hlisted as (l & entry & Hl & Hin & Hname).
      exact (Hnone r l Hr Hl entry Hin Hname). }
    rewrite startServer_state. simpl.
    split; [exact Hfalse |]. split; [reflexivity |]. split; [reflexivity |].
    intros evs. apply run_silent. exact Hfalse.
Qed.

(** The scenario of the specification, where the configured model is not in
    the listing, and a backend that lists it under its name. *)
Lemma C7_missing_model_witness :
  (fst (warmupModel backend_without_model) = false /\
   keepalive (fst (startServer backend_without_model)) = false /\
   listening (fst (startServer backend_without_model)) = true) /\
  (snd (warmupModel backend_ready) = [version_probe; tags_query; warmup_request] /\
   keepalive (fst (startServer backend_ready)) = true).
Proof.
  split.
  - destruct (proj2 (proj2 (proj2 (C7_missing_model backend_without_model))))
      as (Hfalse & _ & Hkeep & Hlisten & _).
    + intros r l Hr Hl entry Hin. exact (backend_without_model_listing r l entry Hr Hl Hin).
    + split; [exact Hfalse |]. split; [exact Hkeep | exact Hlisten].
  - destruct (proj1 (proj2 (C7_missing_model backend_ready))
                _ _ [VObj {[ "name" := VStr "mistral:7b" ]}] eq_refl eq_refl eq_refl)
      as [Hsent Hstart].
    + repeat constructor. eexists _, _. split; reflexivity.
    + eexists. split; [apply list_elem_of_here |].
      eexists _, _. split; [reflexivity |]. split; [reflexivity |]. left. reflexivity.
    + split; [exact Hsent |]. exact (proj2 (Hstart _ " Hello! " eq_refl eq_refl)).
Defined.

Lemma models_some_subject (subject other : string) (data : value) :
  (forall b, models_some subject data = Done b <-> models_some other data = Done b) /\
  ((exists e, models_some subject data = Throw e) <->
   (exists e, models_some other data = Throw e)).
Proof.
  unfold models_some. destruct data as [| | | | | m].
  1-5: (split; [intros r; split; discriminate | split; eauto]).
  destruct (m !! "models") as [[| | | | l |] |].
  1-4, 6-7: (split; [intros r; split; discriminate | split; eauto]).
  split; [intros r; reflexivity | reflexivity].
Qed.

Lemma some_names_target_malformed (pre rest : list value) (entry : value) :
  Forall (fun e => well_formed_entry e /\ ~ names_configured_model e) pre ->
  ~ well_formed_entry entry ->
  exists e, some names_target (pre ++ entry :: rest) = Throw e.
Proof.
  intros Hpre Hbad. induction Hpre as [| x pre [Hx Hno] Hpre IH].
  - cbn. destruct (names_target_throws entry Hbad) as [e ->]. eauto.
  - rewrite <- app_comm_cons. cbn [some].
    destruct (names_target_well_formed x Hx) as [[|] Hb]; rewrite Hb; cbn.
    + exfalso. apply Hno. apply names_target_true. assumption.
    + exact IH.
Qed.

(** X11. The check stops at the first entry that is not an object with a
    string name: when such an entry comes before any entry of the configured
    model, the check throws, so warmup fails without its generation and the
    health check answers 503, even if the model is listed further on. *)
Theorem malformed_entry_breaks_the_check (axios : axios_config -> settled)
    (now : string) (pre rest : list value) (entry : value) :
  Forall (fun e => well_formed_entry e /\ ~ names_configured_model e) pre ->
  ~ well_formed_entry entry ->
  (forall t, axios tags_query = Resolved t ->
     listing (r_data t) = Some (pre ++ entry :: rest)%list ->
     fst (warmupModel axios) = false /\ (warmup_request ∉ snd (warmupModel axios))) /\
  (forall p, axios ps_query = Resolved p ->
     listing (r_data p) = Some (pre ++ entry :: rest)%list ->
     exists body, fst (health axios now) = Json 503 body).
Proof.
  intros Hpre Hbad.
  assert (Hthrows : forall data, listing data = Some (pre ++ entry :: rest)%list ->
                      exists e, model_listed data = Throw e).
  { intros data Hl. unfold listing in Hl. unfold model_listed, models_some.
    destruct data as [| | | | | m]; try discriminate.
    destruct (m !! "models") as [[| | | | l' |] |]; try discriminate.
    injection Hl as ->. apply some_names_target_malformed; assumption. }
  split.
  - intros t Ht Hl. destruct (Hthrows _ Hl) as [e He]. split.
    + destruct (fst (warmupModel axios)) eqn:Hw; [| reflexivity].
      apply warmupModel_true in Hw as (t' & Ht' & Hl'). congruence.
    + apply warmupModel_no_generation. intros t' Ht'. congruence.
  - intros p Hp Hl.
    destruct (proj1 (proj2 (models_some_subject "tagsResponse" "psResponse" (r_data p)))
                (Hthrows _ Hl)) as [e He].
    unfold health, health_steps, await, lift. cbn.
    destruct (axios version_probe) as [v | e']; cbn; [| eauto].
    change (axios_get (OLLAMA_URL +:+ "/api/ps") (Some 5000)) with ps_query.
    rewrite Hp. cbn. rewrite He. cbn. eauto.
Qed.

Lemma malformed_entry_breaks_the_check_witness :
  fst (warmupModel backend_with_null_entry) = false.
Proof.
  refine (proj1 (proj1 (malformed_entry_breaks_the_check backend_with_null_entry timestamp
                          [] [VObj {[ "name" := VStr "mistral:7b" ]}] VNull _ _) _ eq_refl _)).
  - constructor.
  - intros (m & s & Hnull & _). discriminate Hnull.
  - reflexivity.
Defined.

(** X12. The payloads that warmup and keepalive build are fixed points of the
    augmentation: what the proxy sends for itself is what it would forward
    for a caller who sends the same body. *)
Theorem generation_is_augmented (prompt : string) (max_tokens : float) :
  augment (Plain (generation prompt max_tokens)) =
    Done (Plain (generation prompt max_tokens)).
Proof.
  rewrite augment_done by reflexivity.
  unfold forced, merged_options, options_or_empty.
  replace (own (Plain (generation prompt max_tokens)) !! "stream")
    with (Some (VBool false)) by reflexivity.
  cbn [is_not_true]. rewrite own_set_prop, lookup_insert_ne by discriminate.
  replace (own (Plain (generation prompt max_tokens)) !! "options")
    with (Some (VObj (spread2 getOptimizedParams {[ "max_tokens" := VNum max_tokens ]})))
    by reflexivity.
  cbn [truthy own_enumerable]. rewrite spread2_again.
  vm_compute. reflexivity.
Qed.

(** ** The health check of [server.js] (server.js 219-244) *)

Ltac health_cases axios :=
  unfold health, health_steps, await, lift; cbn;
  change (axios_get (OLLAMA_URL +:+ "/api/ps") (Some 5000)) with ps_query;
  destruct (axios version_probe) as [?v | ?e] eqn:Hversion; cbn;
  [ destruct (axios ps_query) as [?p | ?e] eqn:Hps; cbn;
    [ destruct (models_some "psResponse" (r_data p)) as [?b | ?e] eqn:Hlisted; cbn;
      [ destruct (r_data v) as [| | | | | ?m] eqn:Hdata; cbn | ]
    | ]
  | ].

(** X13. The health check answers 200 exactly when both probes are answered
    (the version probe not with [null]) and the list of loaded models can be
    checked; otherwise it answers 503.  A 200 says "healthy" whether or not
    the model is loaded: [model_loaded] carries the result of the check.
    The version probe is sent first and the [/api/ps] probe only after it was
    answered. *)
Theorem health_answers (axios : axios_config -> settled) (now : string) :
  ((exists body, fst (health axios now) = Json 200 body) <->
     exists v p b,
       axios version_probe = Resolved v /\ axios ps_query = Resolved p /\
       model_listed (r_data p) = Done b /\ r_data v ≠ VNull) /\
  (forall v p b,
     axios version_probe = Resolved v -> axios ps_query = Resolved p ->
     model_listed (r_data p) = Done b -> r_data v ≠ VNull ->
     exists fields,
       health axios now = (Json 200 (VObj fields), [version_probe; ps_query]) /\
       fields !! "status" = Some (VStr "healthy") /\
       fields !! "model_loaded" = Some (VBool b) /\
       fields !! "model_name" = Some (VStr MODEL_NAME) /\
       forall m, r_data v = VObj m -> fields !! "ollama_version" = m !! "version") /\
  (exists body, fst (health axios now) = Json 200 body \/
                fst (health axios now) = Json 503 body) /\
  (snd (health axios now) = [version_probe] \/
   snd (health axios now) = [version_probe; ps_query]).
Proof.
  split; [split | split; [| split]].
  - health_cases axios; try (destruct (m !! "version") eqn:Hver; cbn);
      intros [body Hbody]; try discriminate Hbody;
      apply (proj1 (models_some_subject "psResponse" "tagsResponse" (r_data p))) in Hlisted;
      exists v, p, b; rewrite Hdata;
      repeat split; try reflexivity; try assumption; discriminate.
  - intros (v' & p' & b' & Hv & Hp & Hl & Hnull).
    apply (proj1 (models_some_subject "tagsResponse" "psResponse" (r_data p'))) in Hl.
    unfold health, health_steps, await, lift. cbn.
    change (axios_get (OLLAMA_URL +:+ "/api/ps") (Some 5000)) with ps_query.
    rewrite Hv. cbn. rewrite Hp. cbn. rewrite Hl. cbn.
    destruct (r_data v'); cbn; eauto. contradiction.
  - intros v' p' b' Hv Hp Hl Hnull.
    apply (proj1 (models_some_subject "tagsResponse" "psResponse" (r_data p'))) in Hl.
    unfold health, health_steps, await, lift. cbn.
    change (axios_get (OLLAMA_URL +:+ "/api/ps") (Some 5000)) with ps_query.
    rewrite Hv. cbn. rewrite Hp. cbn. rewrite Hl. cbn.
    destruct (r_data v') as [| | | | | m] eqn:Hdata; cbn; try contradiction.
    1-4: (eexists; split; [reflexivity |];
          split; [reflexivity |]; split; [reflexivity |]; split; [reflexivity |];
          intros ? [= ]).
    destruct (m !! "version") as [ver |] eqn:Hver.
    + eexists. split; [reflexivity |].
      split; [reflexivity |]. split; [reflexivity |]. split; [reflexivity |].
      intros ? [= <-]. rewrite Hver. apply lookup_insert_eq.
    + eexists. split; [reflexivity |].
      split; [reflexivity |]. split; [reflexivity |]. split; [reflexivity |].
      intros ? [= <-]. rewrite Hver. reflexivity.
  - health_cases axios; try (destruct (m !! "version")); eauto.
  - health_cases axios; try (destruct (m !! "version")); auto.
Qed.

(** The backend runs, the configured model is not loaded: healthy, with
    [model_loaded: false]. *)
Lemma health_answers_witness :
  exists fields,
    health backend_idle timestamp =
      (Json 200 (VObj fields), [version_probe; ps_query]) /\
    fields !! "status" = Some (VStr "healthy") /\
    fields !! "model_loaded" = Some (VBool false).
Proof.
  destruct (proj1 (proj2 (health_answers backend_idle timestamp))
              {| r_status := 200;
                 r_data := VObj (list_to_map [
                   ("version", VStr "0.5.1");
                   ("models", VArr [VObj {[ "name" := VStr "llama3:8b" ]}]) ]) |}
              {| r_status := 200;
                 r_data := VObj (list_to_map [
                   ("version", VStr "0.5.1");
                   ("models", VArr [VObj {[ "name" := VStr "llama3:8b" ]}]) ]) |}
              false)
    as (fields & Hreply & Hstatus & Hloaded & _).
  - reflexivity.
  - reflexivity.
  - reflexivity.
  - discriminate.
  - exists fields. auto.
Defined.

(** ** The life of the process (server.js 98-118, 247-284) *)

Lemma run_app (p : process) (evs1 evs2 : list event) :
  run p (evs1 ++ evs2) =
    (fst (run (fst (run p evs1)) evs2),
     (snd (run p evs1) ++ snd (run (fst (run p evs1)) evs2))%list).
Proof.
  revert p. induction evs1 as [| ev rest IH]; intros p.
  - cbn. destruct (run p evs2). reflexivity.
  - rewrite <- app_comm_cons. cbn [run].
    destruct (step p ev) as [p1 out1]. rewrite IH.
    destruct (run p1 rest) as [p2 out2]. cbn.
    rewrite app_assoc. reflexivity.
Qed.

Lemma run_exited (p : process) (evs : list event) (code : Z) :
  exited p = Some code -> run p evs = (p, []).
Proof.
  intros Hx. induction evs as [| ev rest IH]; [reflexivity |].
  cbn [run]. unfold step. rewrite Hx, IH. reflexivity.
Qed.

Lemma run_signal (p : process) (evs : list event) :
  exited p = None ->
  run p (Signal :: evs) =
    ({| listening := false; keepalive := keepalive p; exited := Some 0 |}, []).
Proof.
  intros Hx. cbn [run]. unfold step. rewrite Hx.
  rewrite (run_exited {| listening := false; keepalive := keepalive p; exited := Some 0 |}
             evs 0 eq_refl).
  reflexivity.
Qed.

(** X14. After a successful warmup the server listens with the interval set,
    having sent the three warmup requests.  From then on one ping is sent
    per tick, whatever the pings' outcomes, until SIGINT or SIGTERM arrives:
    the process exits with code 0 and nothing is sent after that. *)
Theorem keepalive_until_signal (axios : axios_config -> settled)
    (results : list settled) (evs : list event) :
  fst (warmupModel axios) = true ->
  startServer axios = (warmed_up, [version_probe; tags_query; warmup_request]) /\
  run (fst (startServer axios)) ((Tick <$> results) ++ Signal :: evs) =
    ({| listening := false; keepalive := true; exited := Some 0 |},
     replicate (length results) keepalive_request).
Proof.
  intros Hok.
  assert (Hstart : startServer axios =
                     (warmed_up, [version_probe; tags_query; warmup_request])).
  { rewrite startServer_state, Hok. unfold warmed_up. f_equal.
    revert Hok. warmup_cases axios; try discriminate. reflexivity. }
  split; [exact Hstart |].
  rewrite Hstart. cbn [fst].
  rewrite run_app, (run_ticks warmed_up results eq_refl eq_refl). cbn [fst snd].
  rewrite (run_signal warmed_up evs eq_refl). cbn [fst snd].
  rewrite app_nil_r. reflexivity.
Qed.

Lemma keepalive_until_signal_witness :
  run (fst (startServer backend_ready))
      ((Tick <$> [backend_ready keepalive_request; backend_down keepalive_request])
         ++ Signal :: [Tick (backend_ready keepalive_request)]) =
    ({| listening := false; keepalive := true; exited := Some 0 |},
     [keepalive_request; keepalive_request]).
Proof.
  exact (proj2 (keepalive_until_signal backend_ready
                  [backend_ready keepalive_request; backend_down keepalive_request]
                  [Tick (backend_ready keepalive_request)] eq_refl)).
Defined.

(** ** The token and the headers (server.js 8, 15-21, 150-157) *)

Lemma BEARER_TOKEN_not_empty (env : option string) : BEARER_TOKEN env ≠ "".
Proof.
  unfold BEARER_TOKEN. destruct env as [t |]; [| discriminate].
  destruct (String.eqb t "") eqn:Ht; [discriminate |].
  apply String.eqb_neq. assumption.
Qed.

(** X15. The token is never empty: whatever the environment holds, the
    header ["Bearer "] alone is rejected.  With BEARER_TOKEN unset or empty
    the gate accepts the placeholder credential, and only that one. *)
Theorem token_defaults_to_placeholder (env : option string) (req : request)
    (next : request -> reply * list axios_config) :
  (authorization req = Some "Bearer " ->
     validateToken (BEARER_TOKEN env) req next = (Unauthorized, [])) /\
  (env = None \/ env = Some "" ->
     (authorization req = Some "Bearer your-secret-token-here" ->
        validateToken (BEARER_TOKEN env) req next = next req) /\
     (authorization req ≠ Some "Bearer your-secret-token-here" ->
        validateToken (BEARER_TOKEN env) req next = (Unauthorized, []))).
Proof.
  split.
  - intros Hauth. apply validateToken_rejects. rewrite Hauth. intros [= Heq].
    exact (BEARER_TOKEN_not_empty env (eq_sym Heq)).
  - intros Henv.
    assert (Htoken : BEARER_TOKEN env = "your-secret-token-here")
      by (destruct Henv as [-> | ->]; reflexivity).
    rewrite Htoken. split.
    + apply validateToken_passes.
    + apply validateToken_rejects.
Qed.

Lemma token_defaults_to_placeholder_witness :
  validateToken (BEARER_TOKEN (Some "")) pull_request (proxyHandler backend_up) =
    proxyHandler backend_up pull_request.
Proof.
  refine (proj1 (proj2 (token_defaults_to_placeholder (Some "") pull_request
                          (proxyHandler backend_up)) _) _).
  - right. reflexivity.
  - reflexivity.
Defined.

Lemma pathname_has_no_query (u : string) : includes "?" (pathname u) = false.
Proof.
  induction u as [| c rest IH]; [reflexivity |].
  cbn [pathname]. destruct (Ascii.eqb c "?") eqn:Hc; [reflexivity |].
  rewrite includes_query_cons, Hc, IH. reflexivity.
Qed.

(** X16. What the proxy handler sends to the backend never has a query
    string in its URL, and its only header is the JSON Content-Type: neither
    the caller's Authorization header nor any other header is passed on.
    The timeout is ten minutes. *)
Theorem outbound_request_carries_no_more (axios : axios_config -> settled)
    (req : request) (config : axios_config) :
  config ∈ snd (proxyHandler axios req) ->
  includes "?" (c_url config) = false /\
  c_headers config = {[ "Content-Type" := "application/json" ]} /\
  (forall name, name ≠ "Content-Type" -> c_headers config !! name = None) /\
  c_timeout config = Some 600000.
Proof.
  intros Hin. apply proxyHandler_sent_inv in Hin as (payload & _ & ->).
  unfold axiosConfig; cbn.
  split; [| split; [reflexivity | split; [| reflexivity]]].
  - unfold OLLAMA_URL, path.
    change ("http://localhost:11434" +:+ pathname (url req))
      with (String "h" (String "t" (String "t" (String "p" (String ":" (String "/"
           (String "/" (String "l" (String "o" (String "c" (String "a" (String "l"
           (String "h" (String "o" (String "s" (String "t" (String ":" (String "1"
           (String "1" (String "4" (String "3" (String "4"
           (pathname (url req)))))))))))))))))))))))).
    rewrite !includes_query_cons, pathname_has_no_query. reflexivity.
  - intros name Hname. apply lookup_singleton_ne. congruence.
Qed.

Lemma outbound_request_carries_no_more_witness :
  includes "?" (c_url (axiosConfig tags_with_query (Plain ∅))) = false /\
  c_headers (axiosConfig tags_with_query (Plain ∅)) !! "Authorization" = None.
Proof.
  destruct (outbound_request_carries_no_more backend_up tags_with_query
              (axiosConfig tags_with_query (Plain ∅)))
    as (Hurl & _ & Hheaders & _).
  - rewrite tags_with_query_sent. apply list_elem_of_here.
  - split; [exact Hurl |]. apply Hheaders. discriminate.
Defined.

(** ** An error status on a streamed request (server.js 165-184) *)

(** X17. When a request made in streaming mode is answered by the backend
    with an error status, the data that comes with the error is a stream:
    the [catch] block calls [res.status] with the backend's status and then
    throws in [res.json].  The handler sends no reply of its own and the
    backend's body is not passed on; one request has been sent. *)
Theorem streamed_error_response_escapes (axios : axios_config -> settled)
    (req : request) (payload : object) (config : axios_config)
    (error : js_error) (r : axios_response) :
  outbound req = Done (payload, config) ->
  c_responseType config = Some "stream" ->
  axios config = Rejected error ->
  e_response error = Some r ->
  proxyHandler axios req = (Escaped (r_status r), [config]).
Proof.
  intros Hout Hstream Hrejected Hresponse.
  assert (Hmode : stream_requested payload = true).
  { unfold outbound in Hout.
    destruct (effective_payload req) as [p | e]; [| discriminate].
    cbn in Hout. injection Hout as -> <-.
    unfold axiosConfig in Hstream; cbn in Hstream.
    destruct (stream_requested payload); [reflexivity | discriminate]. }
  unfold proxyHandler. rewrite Hout, Hrejected, Hmode.
  unfold on_error. rewrite Hresponse. reflexivity.
Qed.

Lemma streamed_error_response_escapes_witness :
  exists config,
    proxyHandler backend_answers_404 stream_request = (Escaped 404, [config]).
Proof.
  destruct (outbound stream_request) as [[payload config] | e] eqn:Hout.
  - exists config.
    refine (streamed_error_response_escapes backend_answers_404 stream_request
              payload config _ not_found Hout _ eq_refl eq_refl).
    vm_compute in Hout. injection Hout as _ <-. reflexivity.
  - exfalso. vm_compute in Hout. discriminate Hout.
Defined.
